(** * Iron Lady course manager and FAQ chatbot

    A shallow embedding of [chatbot.py] (class [IronLadyChatbot]) and of the
    store half of [app.py] (class [CourseManager]), with the properties the
    design document states about them.

    Conventions of the embedding:
    - a Python [str] is a Rocq [string] holding its UTF-8 encoding;
    - a [dict] looked up by key is a [gmap]; the keyword table, which the
      code iterates in insertion order, is an association list;
    - a call that may raise returns an [outcome]; code that talks to the
      generative backend or prints runs in [io], which also records the
      calls made and the lines printed;
    - [datetime.now().strftime(...)] is an input: the text it yields is an
      argument of the method that reads the clock. *)

From Stdlib Require Import ZArith Ascii DecimalString.
From Stdlib Require QArith_base.
From stdpp Require Import gmap strings list.

Open Scope Z_scope.

(** ** The Python runtime: string built-ins, exceptions, effects *)
Module Py.

(** *** Strings *)

Definition chr (n : nat) : string := String (ascii_of_nat n) EmptyString.

Definition newline : string := chr 10.

(** ["\n".join(lines)] *)
Fixpoint unlines (lines : list string) : string :=
  match lines with
  | [] => EmptyString
  | [l] => l
  | l :: rest => l +:+ newline +:+ unlines rest
  end.

(** Truth value of a [str]: every string but the empty one. *)
Definition truthy (s : string) : bool :=
  match s with
  | EmptyString => false
  | String _ _ => true
  end.

(** An optional string used as a condition: [None] and the empty string
    both fail the test. *)
Definition if_truthy (x : option string) : option string :=
  match x with
  | Some s => if truthy s then Some s else None
  | None => None
  end.

(** [x or ""] for an optional string [x]. *)
Definition or_empty (x : option string) : string :=
  match x with
  | Some s => if truthy s then s else EmptyString
  | None => EmptyString
  end.

Fixpoint startswith (k s : string) : bool :=
  match k, s with
  | EmptyString, _ => true
  | String a k', String b s' => if Ascii.eqb a b then startswith k' s' else false
  | String _ _, EmptyString => false
  end.

(** [k in s] for two strings: [k] occurs in [s] as a contiguous run. *)
Fixpoint str_in (k s : string) : bool :=
  startswith k s ||
  match s with
  | EmptyString => false
  | String _ s' => str_in k s'
  end.

(** What [k in s] decides: [s] is some text, then [k], then some text. *)
Definition occurs_in (k s : string) : Prop :=
  ∃ pre post : string, s = pre +:+ k +:+ post.

(** The white space of [str.isspace], [str.strip] and [str.split]: the code
    points U+0009..U+000D, U+001C..U+0020, U+0085, U+00A0, U+1680,
    U+2000..U+200A, U+2028, U+2029, U+202F, U+205F and U+3000, recognised
    here by their UTF-8 encodings of one, two and three bytes. *)
Definition space1 (a : ascii) : bool :=
  let n := nat_of_ascii a in
  ((9 <=? n)%nat && (n <=? 13)%nat) || ((28 <=? n)%nat && (n <=? 32)%nat).

Definition space2 (a b : ascii) : bool :=
  let m := nat_of_ascii a in
  let n := nat_of_ascii b in
  (m =? 194)%nat && ((n =? 133)%nat || (n =? 160)%nat).

Definition space3 (a b c : ascii) : bool :=
  let l := nat_of_ascii a in
  let m := nat_of_ascii b in
  let n := nat_of_ascii c in
  ((l =? 225)%nat && (m =? 154)%nat && (n =? 128)%nat)
  || ((l =? 226)%nat && (m =? 128)%nat
      && (((128 <=? n)%nat && (n <=? 138)%nat)
          || (n =? 168)%nat || (n =? 169)%nat || (n =? 175)%nat))
  || ((l =? 226)%nat && (m =? 129)%nat && (n =? 159)%nat)
  || ((l =? 227)%nat && (m =? 128)%nat && (n =? 128)%nat).

(** The same white space as a table: the UTF-8 encodings of the 29 code
    points, each a list of bytes. *)
Definition encoded (bytes : list nat) : string :=
  foldr (fun n s => String (ascii_of_nat n) s) EmptyString bytes.

Definition WHITESPACE : list string :=
  encoded <$>
    [ [9]; [10]; [11]; [12]; [13];
      [28]; [29]; [30]; [31]; [32];
      [194; 133]; [194; 160]; [225; 154; 128]; [226; 128; 128]; [226; 128; 129];
      [226; 128; 130]; [226; 128; 131]; [226; 128; 132]; [226; 128; 133]; [226; 128; 134];
      [226; 128; 135]; [226; 128; 136]; [226; 128; 137]; [226; 128; 138]; [226; 128; 168];
      [226; 128; 169]; [226; 128; 175]; [226; 129; 159]; [227; 128; 128] ]%nat.

(** A string that is empty or made of white space only. *)
Inductive whitespace_only : string -> Prop :=
  | blank_empty : whitespace_only EmptyString
  | blank_more (w s : string) :
      w ∈ WHITESPACE -> whitespace_only s -> whitespace_only (w +:+ s).

(** [s.lstrip()] *)
Fixpoint lstrip (s : string) : string :=
  match s with
  | String a s1 =>
      if space1 a then lstrip s1
      else match s1 with
           | String b s2 =>
               if space2 a b then lstrip s2
               else match s2 with
                    | String c s3 => if space3 a b c then lstrip s3 else s
                    | EmptyString => s
                    end
           | EmptyString => s
           end
  | EmptyString => s
  end.

(** [lstrip] on a reversed string, whose encodings read backwards. *)
Fixpoint lstrip_rev (s : string) : string :=
  match s with
  | String a s1 =>
      if space1 a then lstrip_rev s1
      else match s1 with
           | String b s2 =>
               if space2 b a then lstrip_rev s2
               else match s2 with
                    | String c s3 => if space3 c b a then lstrip_rev s3 else s
                    | EmptyString => s
                    end
           | EmptyString => s
           end
  | EmptyString => s
  end.

(** [s.rstrip()] *)
Definition rstrip (s : string) : string := String.rev (lstrip_rev (String.rev s)).

(** [s.strip()] *)
Definition strip (s : string) : string := rstrip (lstrip s).

(** [s.strip(chars)] for a set [chars] of ASCII characters. *)
Fixpoint lstrip_chars (chars : list ascii) (s : string) : string :=
  match s with
  | String a s' => if bool_decide (a ∈ chars) then lstrip_chars chars s' else s
  | EmptyString => s
  end.

Definition strip_chars (chars : list ascii) (s : string) : string :=
  String.rev (lstrip_chars chars (String.rev (lstrip_chars chars s))).

(** [s.split(sep)] for a one-byte separator: never an empty list. *)
Fixpoint split (sep : ascii) (s : string) : list string :=
  match s with
  | EmptyString => [EmptyString]
  | String a s' =>
      if Ascii.eqb a sep then EmptyString :: split sep s'
      else match split sep s' with
           | piece :: pieces => String a piece :: pieces
           | [] => [String a EmptyString]
           end
  end.

(** [str(n)] for an [int]. *)
Definition str_of_int (n : Z) : string := NilZero.string_of_int (Z.to_int n).

(** ASCII lower-casing: what [str.lower] does to a string of ASCII
    characters. The methods below take the lower-casing function of the
    runtime as a parameter; this one serves to run them on ASCII inputs. *)
Definition ascii_lower_char (a : ascii) : ascii :=
  let n := nat_of_ascii a in
  if (65 <=? n)%nat && (n <=? 90)%nat then ascii_of_nat (n + 32) else a.

Fixpoint ascii_lower (s : string) : string :=
  match s with
  | EmptyString => EmptyString
  | String a s' => String (ascii_lower_char a) (ascii_lower s')
  end.

(** *** Exceptions *)

(** The exceptions met in the two classes; all derive from [Exception]. *)
Inductive exn : Type :=
  | KeyError (key : string)
  | IndexError (msg : string)
  | AttributeError (msg : string)
  | BackendError (msg : string).

(** [str(e)] *)
Definition str_of_exn (e : exn) : string :=
  match e with
  | KeyError key => "'" +:+ key +:+ "'"
  | IndexError msg | AttributeError msg | BackendError msg => msg
  end.

Inductive outcome (A : Type) : Type :=
  | Returned (a : A)
  | Raised (e : exn).
Arguments Returned {A} a.
Arguments Raised {A} e.

#[export] Instance outcome_ret : MRet outcome := fun A a => Returned a.
#[export] Instance outcome_bind : MBind outcome := fun A B f m =>
  match m with
  | Returned a => f a
  | Raised e => Raised e
  end.

(** The values stored in the records of the store: integers and strings. *)
Inductive value : Type :=
  | VInt (n : Z)
  | VStr (s : string).

(** How an f-string renders a value. *)
Definition str_of_value (v : value) : string :=
  match v with
  | VInt n => str_of_int n
  | VStr s => s
  end.

(** [d[key]] on a dict with string keys. *)
Definition getitem {V : Type} (d : gmap string V) (key : string) : outcome V :=
  match d !! key with
  | Some v => Returned v
  | None => Raised (KeyError key)
  end.

(** [l[0]] *)
Definition first_item {A : Type} (l : list A) : outcome A :=
  match l with
  | x :: _ => Returned x
  | [] => Raised (IndexError "list index out of range")
  end.

(** [x.strip()] where [x] may be [None]. *)
Definition strip_attr (x : option string) : outcome string :=
  match x with
  | Some s => Returned (strip s)
  | None => Raised (AttributeError "'NoneType' object has no attribute 'strip'")
  end.

End Py.

Import Py.

(** ** The generative backend, as the two classes use it *)
Module OpenAI.

Record message : Type := { role : string; content : string }.

(** The keyword arguments of [chat.completions.create]. *)
Record request : Type := {
  model : string;
  messages : list message;
  max_tokens : Z;
  temperature : QArith_base.Q
}.

(** [response.choices[i].message.content], which may be [None]. *)
Record choice : Type := { message_content : option string }.
Record response : Type := { choices : list choice }.

(** A configured client: [chat.completions.create] either returns a
    response or raises. *)
Definition client : Type := request -> outcome response.

(** [response.choices[0].message.content.strip()] *)
Definition stripped_content (r : response) : outcome string :=
  first ← first_item (choices r);
  strip_attr (message_content first).

(** The outcome of a call counts as a failure when the method that made it
    ends in its [except] branch: the call raised, or its response holds no
    choice or no text. *)
Definition fails (o : outcome response) : Prop :=
  ∃ e, o ≫= stripped_content = Raised e.

(** The call returned a response whose first choice holds [text]. *)
Definition returns_text (o : outcome response) (text : string) : Prop :=
  ∃ rest, o = Returned {| choices := {| message_content := Some text |} :: rest |}.

End OpenAI.

Import OpenAI.

(** ** Effects: backend calls and printed lines *)
Module Effects.

Inductive event : Type :=
  | Call (r : request)
  | Print (line : string).

(** A computation yields the events it caused, in order, and its outcome. *)
Definition io (A : Type) : Type := (list event * outcome A)%type.

#[export] Instance io_ret : MRet io := fun A a => ([], Returned a).
#[export] Instance io_bind : MBind io := fun A B f m =>
  match m with
  | (t, Returned a) => let '(t', r) := f a in (t ++ t', r)
  | (t, Raised e) => (t, Raised e)
  end.

Definition lift {A : Type} (o : outcome A) : io A := ([], o).

Definition print (line : string) : io unit := ([Print line], Returned tt).

(** [client.chat.completions.create(...)] *)
Definition create (c : client) (r : request) : io response := ([Call r], c r).

(** [try: body  except Exception as e: handler e] *)
Definition try_except {A : Type} (body : io A) (handler : exn -> io A) : io A :=
  match body with
  | (t, Returned a) => (t, Returned a)
  | (t, Raised e) => let '(t', r) := handler e in (t ++ t', r)
  end.

Definition events {A : Type} (m : io A) : list event := fst m.
Definition result {A : Type} (m : io A) : outcome A := snd m.

(** The requests sent to the backend, in order. *)
Definition calls {A : Type} (m : io A) : list request :=
  omap (fun ev => match ev with Call r => Some r | Print _ => None end) (events m).

End Effects.

Import Effects.

(** ** chatbot.py: class [IronLadyChatbot] *)
Module Chatbot.

(** One value of [self.faq_data]. *)
Record faq_entry : Type := { question : string; answer : string }.

Record IronLadyChatbot : Type := {
  openai_client : option client;
  faq_data : gmap string faq_entry;
  keywords : list (string * list string)
}.

(** [self.faq_data] *)
Definition FAQ_DATA : gmap string faq_entry :=
  list_to_map
    [ ("programs",
       {| question := "What programs does Iron Lady offer?";
          answer :=
            unlines
              [ "Iron Lady offers comprehensive leadership programs including:";
                "                ";
                "• Executive Leadership Development Program (6 months)";
                "• Women in Leadership Bootcamp (3 months)";
                "• Corporate Mentorship Program (4 months)";
                "• Leadership Skills Workshop Series (2 months)";
                "• Personal Branding & Communication Program (3 months)";
                "• Strategic Thinking & Decision Making Course (2 months)";
                "";
                "All programs are designed to empower women leaders across various industries." ] |});
      ("duration",
       {| question := "What is the program duration?";
          answer :=
            unlines
              [ "Program durations vary based on the course:";
                "";
                "• Executive Leadership Development: 6 months";
                "• Women in Leadership Bootcamp: 3 months";
                "• Corporate Mentorship Program: 4 months";
                "• Leadership Skills Workshop: 2 months";
                "• Personal Branding Program: 3 months";
                "• Strategic Thinking Course: 2 months";
                "";
                "Each program includes weekly sessions, practical assignments, and one-on-one mentoring." ] |});
      ("format",
       {| question := "Is the program online or offline?";
          answer :=
            unlines
              [ "Iron Lady offers flexible learning formats:";
                "";
                "• Hybrid Model: Combination of online and offline sessions";
                "• Online Sessions: Live interactive webinars, recorded lectures, virtual group discussions";
                "• Offline Sessions: In-person workshops, networking events, practical exercises";
                "• Location: Physical sessions conducted at ITPL, Bengaluru";
                "• Flexibility: 70% online, 30% offline for maximum convenience";
                "";
                "All sessions are recorded for later review." ] |});
      ("certificates",
       {| question := "Are certificates provided?";
          answer :=
            unlines
              [ "Yes! Iron Lady provides comprehensive certification:";
                "";
                "• Official Certificate of Completion for all programs";
                "• Digital badges for LinkedIn profiles";
                "• Industry-recognized credentials";
                "• Continuing Education Units (CEUs) where applicable";
                "• Portfolio of completed projects and case studies";
                "• Letter of recommendation from mentors (upon request)";
                "";
                "Certificates are issued upon successful completion of all program requirements." ] |});
      ("mentors",
       {| question := "Who are the mentors/coaches?";
          answer :=
            unlines
              [ "Our expert mentor team includes:";
                "";
                "• Senior executives from Fortune 500 companies";
                "• Successful women entrepreneurs and founders";
                "• Industry leaders with 15+ years of experience";
                "• Certified leadership coaches and consultants";
                "• Former C-suite executives from various sectors";
                "• International speakers and thought leaders";
                "";
                "Mentor-to-participant ratio is maintained at 1:8 for personalized attention.";
                "Each participant is assigned a dedicated mentor based on their career goals." ] |}) ].

(** [self.keywords], in the order the dict literal lists the topics. *)
Definition KEYWORDS : list (string * list string) :=
  [ ("programs", ["program"; "course"; "offer"; "available"; "what"; "services"]);
    ("duration", ["duration"; "time"; "long"; "period"; "months"; "weeks"]);
    ("format", ["online"; "offline"; "mode"; "format"; "where"; "location"]);
    ("certificates", ["certificate"; "certification"; "credential"; "badge"]);
    ("mentors", ["mentor"; "coach"; "teacher"; "instructor"; "guide"; "expert"]) ].

Definition SYSTEM_PROMPT : string :=
  unlines
    [ "You are a helpful assistant for Iron Lady Leadership Programs. ";
      "            You should provide accurate, encouraging, and professional responses about leadership development.";
      "            Keep responses concise but informative. Always maintain a supportive and empowering tone.";
      "            ";
      "            Available Programs Context:";
      "            - Executive Leadership Development (6 months)";
      "            - Women in Leadership Bootcamp (3 months) ";
      "            - Corporate Mentorship Program (4 months)";
      "            - Leadership Skills Workshop (2 months)";
      "            - Personal Branding Program (3 months)";
      "            - Strategic Thinking Course (2 months)";
      "            ";
      "            All programs are hybrid (70% online, 30% offline) with expert mentors and certificates provided." ].

Definition PROMPT_FOR_INPUT : string :=
  "Please ask me something about Iron Lady's leadership programs!".

Definition MENU : string :=
  unlines
    [ "I'd be happy to help you learn about Iron Lady's leadership programs! ";
      "";
      "You can ask me about:";
      "• What programs are offered";
      "• Program duration and format";
      "• Online/offline availability  ";
      "• Certification details";
      "• Our mentors and coaches";
      "";
      "What would you like to know?" ].

(** [setup_openai]: [api_key] is what [os.getenv('OPENAI_API_KEY')] gave,
    [OpenAI] the constructor of the client library. The result is the value
    left in [self.openai_client]. *)
Definition setup_openai (api_key : option string) (OpenAI : string -> outcome client)
  : io (option client) :=
  if truthy (or_empty api_key) then
    try_except
      (c ← lift (OpenAI (or_empty api_key));
       _ ← print "✅ OpenAI API connected successfully!";
       mret (Some c))
      (fun e =>
         _ ← print ("⚠️ OpenAI setup failed: " +:+ str_of_exn e);
         mret None)
  else
    _ ← print "⚠️ No OpenAI API key found. Using basic FAQ responses only.";
    mret None.

(** The object [__init__] leaves behind, given what [setup_openai] stored. *)
Definition with_client (c : option client) : IronLadyChatbot :=
  {| openai_client := c; faq_data := FAQ_DATA; keywords := KEYWORDS |}.

(** [__init__] *)
Definition init (api_key : option string) (OpenAI : string -> outcome client)
  : io IronLadyChatbot :=
  c ← setup_openai api_key OpenAI;
  mret (with_client c).

(** A topic matches a text when one of its keywords occurs in it. *)
Definition matches (kws : list string) (text : string) : Prop :=
  ∃ keyword, keyword ∈ kws ∧ occurs_in keyword text.

Section Methods.

(** [str.lower] of the runtime. *)
Variable lower : string -> string.

(** [any(keyword in user_input_lower for keyword in keywords)] *)
Definition any_keyword_in (kws : list string) (user_input_lower : string) : bool :=
  existsb (fun keyword => str_in keyword user_input_lower) kws.

(** The loop of [find_intent] over [self.keywords.items()]: leave with the
    first topic one of whose keywords occurs. *)
Fixpoint first_match (items : list (string * list string)) (user_input_lower : string)
  : option string :=
  match items with
  | [] => None
  | (intent, kws) :: rest =>
      if any_keyword_in kws user_input_lower then Some intent
      else first_match rest user_input_lower
  end.

Definition find_intent (self : IronLadyChatbot) (user_input : string) : option string :=
  let user_input_lower := lower user_input in
  first_match (keywords self) user_input_lower.

Definition get_faq_response (self : IronLadyChatbot) (intent : string) : option string :=
  match faq_data self !! intent with
  | Some entry => Some (answer entry)
  | None => None
  end.

Definition get_ai_response (self : IronLadyChatbot) (user_input context : string)
  : io (option string) :=
  match openai_client self with
  | None => mret None
  | Some c =>
      try_except
        (let system_prompt :=
           if truthy context
           then SYSTEM_PROMPT +:+ newline +:+ newline +:+ "Relevant FAQ Context: " +:+ context
           else SYSTEM_PROMPT in
         response ← create c
           {| model := "gpt-3.5-turbo";
              messages := [ {| role := "system"; content := system_prompt |};
                            {| role := "user"; content := user_input |} ];
              max_tokens := 300;
              temperature := QArith_base.Qmake 7 10 |};
         text ← lift (stripped_content response);
         mret (Some text))
        (fun e =>
           _ ← print ("AI response error: " +:+ str_of_exn e);
           mret None)
  end.

Definition get_response (self : IronLadyChatbot) (user_input : string) : io string :=
  if negb (truthy (strip user_input)) then mret PROMPT_FOR_INPUT
  else
    let intent := find_intent self user_input in
    let faq_response :=
      match intent with
      | Some i => if truthy i then get_faq_response self i else None
      | None => None
      end in
    ai_response ← get_ai_response self user_input (or_empty faq_response);
    match if_truthy ai_response with
    | Some reply => mret reply
    | None =>
        match if_truthy faq_response with
        | Some reply => mret reply
        | None => mret MENU
        end
    end.

End Methods.

End Chatbot.

Import Chatbot.

(** ** app.py: class [CourseManager] *)
Module App.

(** Course records, feedback records and the [course_data] of a caller are
    dicts from field names to values. *)
Record CourseManager : Type := {
  courses : gmap Z (gmap string value);
  feedback : list (gmap string value);
  next_course_id : Z;
  next_feedback_id : Z;
  openai_client : option client
}.

(** A method that may change the object: its outcome and the object after
    it. A method that raises does so before it has changed anything. *)
Definition method (A : Type) : Type := CourseManager -> outcome A * CourseManager.

Definition set_courses (m : gmap Z (gmap string value)) (self : CourseManager)
  : CourseManager :=
  {| courses := m;
     feedback := feedback self;
     next_course_id := next_course_id self;
     next_feedback_id := next_feedback_id self;
     openai_client := openai_client self |}.

Definition set_next_course_id (n : Z) (self : CourseManager) : CourseManager :=
  {| courses := courses self;
     feedback := feedback self;
     next_course_id := n;
     next_feedback_id := next_feedback_id self;
     openai_client := openai_client self |}.

(** The dict literal of [add_course]; [created] and [updated] are the two
    readings of the clock. *)
Definition new_record (course_id : Z) (course_data : gmap string value)
    (created updated : string) : outcome (gmap string value) :=
  title ← getitem course_data "title";
  description ← getitem course_data "description";
  duration ← getitem course_data "duration";
  format ← getitem course_data "format";
  price ← getitem course_data "price";
  category ← getitem course_data "category";
  mret (list_to_map
          [ ("id", VInt course_id);
            ("title", title);
            ("description", description);
            ("duration", duration);
            ("format", format);
            ("price", price);
            ("category", category);
            ("created_at", VStr created);
            ("updated_at", VStr updated) ]).

Definition add_course (course_data : gmap string value) (created updated : string)
  : method Z := fun self =>
  let course_id := next_course_id self in
  match new_record course_id course_data created updated with
  | Raised e => (Raised e, self)
  | Returned record =>
      let self := set_courses (<[course_id := record]> (courses self)) self in
      let self := set_next_course_id (next_course_id self + 1) self in
      (Returned course_id, self)
  end.

Definition get_course (self : CourseManager) (course_id : Z)
  : option (gmap string value) :=
  courses self !! course_id.

(** The dict literal passed to [dict.update] in [update_course]; [now] is
    the reading of the clock. *)
Definition changes (course_data : gmap string value) (now : string)
  : outcome (gmap string value) :=
  title ← getitem course_data "title";
  description ← getitem course_data "description";
  duration ← getitem course_data "duration";
  format ← getitem course_data "format";
  price ← getitem course_data "price";
  category ← getitem course_data "category";
  mret (list_to_map
          [ ("title", title);
            ("description", description);
            ("duration", duration);
            ("format", format);
            ("price", price);
            ("category", category);
            ("updated_at", VStr now) ]).

(** [record.update(new)]: the keys of [new] take its values. *)
Definition dict_update (record new : gmap string value) : gmap string value :=
  new ∪ record.

Definition update_course (course_id : Z) (course_data : gmap string value) (now : string)
  : method bool := fun self =>
  match courses self !! course_id with
  | Some record =>
      match changes course_data now with
      | Raised e => (Raised e, self)
      | Returned new =>
          (Returned true,
           set_courses (<[course_id := dict_update record new]> (courses self)) self)
      end
  | None => (Returned false, self)
  end.

Definition delete_course (course_id : Z) : method bool := fun self =>
  match courses self !! course_id with
  | Some _ => (Returned true, set_courses (delete course_id (courses self)) self)
  | None => (Returned false, self)
  end.

Definition sample_courses : list (gmap string value) :=
  [ list_to_map
      [ ("title", VStr "Executive Leadership Development");
        ("description", VStr "Comprehensive 6-month program for senior executives");
        ("duration", VStr "6 months");
        ("format", VStr "Hybrid");
        ("price", VStr "₹1,50,000");
        ("category", VStr "Executive") ];
    list_to_map
      [ ("title", VStr "Women in Leadership Bootcamp");
        ("description", VStr "Intensive 3-month bootcamp for emerging women leaders");
        ("duration", VStr "3 months");
        ("format", VStr "Online");
        ("price", VStr "₹75,000");
        ("category", VStr "Leadership") ];
    list_to_map
      [ ("title", VStr "Personal Branding Program");
        ("description", VStr "Build your professional brand and communication skills");
        ("duration", VStr "3 months");
        ("format", VStr "Hybrid");
        ("price", VStr "₹50,000");
        ("category", VStr "Branding") ] ].

(** The loop of [load_sample_data]; [clock n] is the [n]-th next reading of
    the clock, and each [add_course] takes two. *)
Fixpoint add_each (data : list (gmap string value)) (clock : nat -> string)
  : method unit := fun self =>
  match data with
  | [] => (Returned tt, self)
  | course_data :: rest =>
      match add_course course_data (clock 0%nat) (clock 1%nat) self with
      | (Returned _, self) => add_each rest (fun n => clock (S (S n))) self
      | (Raised e, self) => (Raised e, self)
      end
  end.

Definition load_sample_data (clock : nat -> string) : method unit :=
  add_each sample_courses clock.

(** [setup_openai]: [api_key] is what [os.getenv('OPENAI_API_KEY')] gave,
    [OpenAI] the constructor of the client library. The result is the value
    left in [self.openai_client]. *)
Definition setup_openai (api_key : option string) (OpenAI : string -> outcome client)
  : io (option client) :=
  if truthy (or_empty api_key) then
    try_except
      (c ← lift (OpenAI (or_empty api_key));
       _ ← print "✅ OpenAI API connected for course management!";
       mret (Some c))
      (fun e =>
         _ ← print ("⚠️ OpenAI setup failed: " +:+ str_of_exn e);
         mret None)
  else mret None.

(** [__init__] *)
Definition init (api_key : option string) (OpenAI : string -> outcome client)
    (clock : nat -> string) : io CourseManager :=
  c ← setup_openai api_key OpenAI;
  let self :=
    {| courses := ∅; feedback := [];
       next_course_id := 1; next_feedback_id := 1;
       openai_client := c |} in
  match load_sample_data clock self with
  | (Returned _, self) => mret self
  | (Raised e, _) => lift (Raised e)
  end.

Definition FALLBACK_SUGGESTIONS : list string :=
  [ "Advanced Leadership Communication";
    "Digital Transformation for Leaders";
    "Emotional Intelligence in Leadership";
    "Strategic Decision Making Workshop" ].

Definition ERROR_SUGGESTIONS : list string :=
  [ "Advanced Leadership Communication"; "Digital Transformation for Leaders" ].

Definition suggestion_prompt (category : string) : string :=
  unlines
    [ "Generate 4 creative course title suggestions for Iron Lady Leadership Programs.";
      "            Focus on women's leadership development and empowerment.";
      "            " +:+ (if truthy category then "Category focus: " +:+ category else "");
      "            ";
      "            Return only the course titles, one per line." ].

Definition generate_course_suggestions (self : CourseManager) (category : string)
  : io (list string) :=
  match openai_client self with
  | None => mret FALLBACK_SUGGESTIONS
  | Some c =>
      try_except
        (let prompt := suggestion_prompt category in
         response ← create c
           {| model := "gpt-3.5-turbo";
              messages := [ {| role := "user"; content := prompt |} ];
              max_tokens := 150;
              temperature := QArith_base.Qmake 8 10 |};
         text ← lift (stripped_content response);
         let suggestions := split "010"%char text in
         mret (map (fun s => strip (strip_chars ["-"%char; " "%char] s))
                   (filter (fun s => truthy (strip s) = true) suggestions)))
        (fun e =>
           _ ← print ("AI suggestion error: " +:+ str_of_exn e);
           mret ERROR_SUGGESTIONS)
  end.

Definition NO_FEEDBACK : string := "No feedback available for summary.".

Definition NO_SUMMARY : string := "Unable to generate feedback summary at this time.".

(** [l[-10:]] *)
Definition last10 {A : Type} (l : list A) : list A := drop (length l - 10) l.

(** One line of [feedback_text]. *)
Definition feedback_line (f : gmap string value) : outcome string :=
  rating ← getitem f "rating";
  text ← getitem f "feedback";
  mret ("Rating: " +:+ str_of_value rating +:+ "/5 - " +:+ str_of_value text).

Definition summary_prompt (feedback_text : string) : string :=
  unlines
    [ "Summarize the following student feedback for Iron Lady Leadership Programs.";
      "            Provide key insights, common themes, and overall sentiment:";
      "            ";
      "            " +:+ feedback_text ].

Definition summarize_feedback (self : CourseManager) : io string :=
  match feedback self, openai_client self with
  | [], _ | _, None => mret NO_FEEDBACK
  | _ :: _, Some c =>
      try_except
        (lines ← lift (mapM feedback_line (last10 (feedback self)));
         let feedback_text := unlines lines in
         let prompt := summary_prompt feedback_text in
         response ← create c
           {| model := "gpt-3.5-turbo";
              messages := [ {| role := "user"; content := prompt |} ];
              max_tokens := 200;
              temperature := QArith_base.Qmake 5 10 |};
         text ← lift (stripped_content response);
         mret text)
        (fun e =>
           _ ← print ("AI summary error: " +:+ str_of_exn e);
           mret NO_SUMMARY)
  end.

(** *** Sessions: the calls a program makes on one store *)

Inductive call : Type :=
  | AddCourse (course_data : gmap string value) (created updated : string)
  | UpdateCourse (course_id : Z) (course_data : gmap string value) (now : string)
  | DeleteCourse (course_id : Z).

Inductive reply : Type :=
  | Id (r : outcome Z)
  | Flag (r : outcome bool).

Definition perform (c : call) (self : CourseManager) : reply * CourseManager :=
  match c with
  | AddCourse course_data created updated =>
      let '(r, self) := add_course course_data created updated self in (Id r, self)
  | UpdateCourse course_id course_data now =>
      let '(r, self) := update_course course_id course_data now self in (Flag r, self)
  | DeleteCourse course_id =>
      let '(r, self) := delete_course course_id self in (Flag r, self)
  end.

(** The replies to a sequence of calls, and the store before each call and
    after the last. *)
Fixpoint session (cs : list call) (self : CourseManager)
  : list reply * list CourseManager :=
  match cs with
  | [] => ([], [self])
  | c :: rest =>
      let '(r, self') := perform c self in
      let '(rs, stores) := session rest self' in
      (r :: rs, self :: stores)
  end.

(** The identifier a reply hands out, if it is that of an [add_course] that
    returned. *)
Definition assigned_id (r : reply) : option Z :=
  match r with
  | Id (Returned course_id) => Some course_id
  | _ => None
  end.

(** The identifiers handed out during a session, in order. *)
Definition assigned_ids (cs : list call) (self : CourseManager) : list Z :=
  omap assigned_id (fst (session cs self)).

(** The fields a caller supplies. *)
Definition FIELDS : list string :=
  ["title"; "description"; "duration"; "format"; "price"; "category"].

(** [course_data] carries the six fields [add_course] and [update_course] read. *)
Definition complete (course_data : gmap string value) : Prop :=
  Forall (fun key => is_Some (course_data !! key)) FIELDS.

(** A call whose [course_data] is complete. *)
Definition well_formed (c : call) : Prop :=
  match c with
  | AddCourse course_data _ _ | UpdateCourse _ course_data _ => complete course_data
  | DeleteCourse _ => True
  end.

Definition is_add (c : call) : bool :=
  match c with
  | AddCourse _ _ _ => true
  | _ => false
  end.

(** The number of [add_course] calls in a session. *)
Definition adds (cs : list call) : nat := length (filter is_add cs).

(** Every identifier in use is below the next one to hand out. *)
Definition ids_below_next (self : CourseManager) : Prop :=
  ∀ k, is_Some (courses self !! k) → k < next_course_id self.

End App.

Import App.

(** ** Sample objects and inputs, used to run the definitions *)
Module Examples.

(** A backend whose every call raises. *)
Definition failing : client := fun _ => Raised (BackendError "timeout").

(** A backend that always answers with [text]. *)
Definition answering (text : string) : client := fun _ =>
  Returned {| choices := [ {| message_content := Some text |} ] |}.

Definition course_fields (name : string) : gmap string value :=
  list_to_map
    [ ("title", VStr name);
      ("description", VStr "A course");
      ("duration", VStr "1 month");
      ("format", VStr "Online");
      ("price", VStr "100");
      ("category", VStr "General") ].

Definition empty_store : CourseManager :=
  {| courses := ∅; feedback := [];
     next_course_id := 1; next_feedback_id := 1;
     openai_client := None |}.

Definition old_record : gmap string value :=
  list_to_map
    [ ("id", VInt 1);
      ("title", VStr "Old");
      ("description", VStr "An old course");
      ("duration", VStr "2 months");
      ("format", VStr "Hybrid");
      ("price", VStr "50");
      ("category", VStr "General");
      ("created_at", VStr "2024-01-01 09:00:00");
      ("updated_at", VStr "2024-01-01 09:00:00") ].

Definition one_course_store : CourseManager :=
  {| courses := {[ 1 := old_record ]}; feedback := [];
     next_course_id := 2; next_feedback_id := 1;
     openai_client := None |}.

(** Add two courses, delete them, add a third, with a call that lacks its
    fields in between. *)
Definition add_delete_add : list call :=
  [ AddCourse (course_fields "A") "2024-01-01 09:00:00" "2024-01-01 09:00:00";
    AddCourse (course_fields "B") "2024-01-01 09:00:01" "2024-01-01 09:00:01";
    DeleteCourse 2;
    AddCourse ∅ "2024-01-01 09:00:02" "2024-01-01 09:00:02";
    DeleteCourse 1;
    AddCourse (course_fields "C") "2024-01-01 09:00:03" "2024-01-01 09:00:03" ].

(** The same without the ill-formed call. *)
Definition add_delete_add_well_formed : list call :=
  [ AddCourse (course_fields "A") "2024-01-01 09:00:00" "2024-01-01 09:00:00";
    AddCourse (course_fields "B") "2024-01-01 09:00:01" "2024-01-01 09:00:01";
    DeleteCourse 2;
    DeleteCourse 1;
    AddCourse (course_fields "C") "2024-01-01 09:00:03" "2024-01-01 09:00:03" ].

End Examples.

Import Examples.

(** ** app.py: feedback *)
Module Feedback.

Section WithInt.

(** [int(s)] of the runtime on a string: the number read, or the
    [ValueError] raised. *)
Variable int_of_str : string -> outcome Z.

(** [int(v)] *)
Definition int_ (v : value) : outcome Z :=
  match v with
  | VInt n => Returned n
  | VStr s => int_of_str s
  end.

(** The dict literal of [add_feedback]; [now] is the reading of the clock. *)
Definition new_feedback (feedback_id : Z) (feedback_data : gmap string value)
    (now : string) : outcome (gmap string value) :=
  name ← getitem feedback_data "name";
  email ← getitem feedback_data "email";
  course ← getitem feedback_data "course";
  rating ← getitem feedback_data "rating";
  rating ← int_ rating;
  text ← getitem feedback_data "feedback";
  mret (list_to_map
          [ ("id", VInt feedback_id);
            ("name", name);
            ("email", email);
            ("course", course);
            ("rating", VInt rating);
            ("feedback", text);
            ("created_at", VStr now) ]).

Definition add_feedback (feedback_data : gmap string value) (now : string)
  : method Z := fun self =>
  let feedback_id := next_feedback_id self in
  match new_feedback feedback_id feedback_data now with
  | Raised e => (Raised e, self)
  | Returned entry =>
      (Returned feedback_id,
       {| courses := courses self;
          feedback := feedback self ++ [entry];
          next_course_id := next_course_id self;
          next_feedback_id := next_feedback_id self + 1;
          openai_client := openai_client self |})
  end.

(** What [add_feedback] needs of its argument: the five fields, and a
    rating that [int] reads as [n]. *)
Definition reads_as (feedback_data : gmap string value) (n : Z) : Prop :=
  is_Some (feedback_data !! "name") ∧ is_Some (feedback_data !! "email")
  ∧ is_Some (feedback_data !! "course") ∧ is_Some (feedback_data !! "feedback")
  ∧ ∃ r, feedback_data !! "rating" = Some r ∧ int_ r = Returned n.

End WithInt.

Definition get_all_feedback (self : CourseManager) : list (gmap string value) :=
  feedback self.

(** *** Histories: every call that changes a store *)

Inductive action : Type :=
  | OnCourses (c : call)
  | AddFeedback (feedback_data : gmap string value) (now : string).

Definition act (int_of_str : string -> outcome Z) (a : action) (self : CourseManager)
  : CourseManager :=
  match a with
  | OnCourses c => (perform c self).2
  | AddFeedback feedback_data now => (add_feedback int_of_str feedback_data now self).2
  end.

(** The store after a sequence of calls, whether they returned or raised. *)
Definition run (int_of_str : string -> outcome Z) (actions : list action)
    (self : CourseManager) : CourseManager :=
  foldl (fun self a => act int_of_str a self) self actions.

(** A store a program can hold: built by [__init__], then used. *)
Definition reachable (int_of_str : string -> outcome Z) (self : CourseManager) : Prop :=
  ∃ api_key OpenAI clock actions self0,
    result (init api_key OpenAI clock) = Returned self0
    ∧ self = run int_of_str actions self0.

(** The keys of a course record. *)
Definition COURSE_KEYS : list string :=
  [ "id"; "title"; "description"; "duration"; "format"; "price"; "category";
    "created_at"; "updated_at" ].

(** Every record is stored under its own ["id"] and holds the nine keys. *)
Definition records_keyed (self : CourseManager) : Prop :=
  ∀ k record,
    courses self !! k = Some record →
    record !! "id" = Some (VInt k)
    ∧ Forall (fun key => is_Some (record !! key)) COURSE_KEYS.

(** The feedback entries are numbered 1, 2, ... in the order of the list,
    and the counter is one past the last. *)
Definition feedback_numbered (self : CourseManager) : Prop :=
  (fun entry : gmap string value => entry !! "id") <$> feedback self
  = (fun n => Some (VInt n)) <$> seqZ 1 (Z.of_nat (length (feedback self)))
  ∧ next_feedback_id self = 1 + Z.of_nat (length (feedback self)).

(** An entry [summarize_feedback] can render. *)
Definition rendered (entry : gmap string value) : Prop :=
  is_Some (entry !! "rating") ∧ is_Some (entry !! "feedback").

End Feedback.

(** ** app.py: the routes that change courses, and the chat endpoint *)
Module Routes.

(** What a handler reads of the request. A missing form field raises
    [BadRequestKeyError], a [KeyError]. *)
Record request : Type := {
  method : string;
  form : gmap string string
}.

(** What a handler returns: [redirect(url_for(endpoint))] or
    [render_template(name, course=course)]. *)
Inductive page : Type :=
  | Redirect (endpoint : string)
  | Template (name : string) (course : option (gmap string value)).

(** [flash(message, category)] *)
Definition flash : Type := (string * string)%type.

(** A request handled: what was served or raised, the messages flashed, and
    the store afterwards. *)
Record handled : Type := {
  served : outcome page;
  flashes : list flash;
  store : CourseManager
}.

Definition quote : string := chr 34.

(** The dict built from [request.form] by the add and edit handlers. *)
Definition course_data_of (f : gmap string string) : outcome (gmap string value) :=
  title ← getitem f "title";
  description ← getitem f "description";
  duration ← getitem f "duration";
  format ← getitem f "format";
  price ← getitem f "price";
  category ← getitem f "category";
  mret (list_to_map
          [ ("title", VStr title);
            ("description", VStr description);
            ("duration", VStr duration);
            ("format", VStr format);
            ("price", VStr price);
            ("category", VStr category) ]).

(** Truth value of an optional dict: [None] and the empty dict fail. *)
Definition found (course : option (gmap string value)) : bool :=
  match course with
  | Some record => negb (bool_decide (record = ∅))
  | None => false
  end.

(** [/course/add] *)
Definition add_course (req : request) (created updated : string)
    (course_manager : CourseManager) : handled :=
  if bool_decide (method req = "POST") then
    match course_data_of (form req) with
    | Raised e => {| served := Raised e; flashes := []; store := course_manager |}
    | Returned course_data =>
        match App.add_course course_data created updated course_manager with
        | (Raised e, course_manager) =>
            {| served := Raised e; flashes := []; store := course_manager |}
        | (Returned course_id, course_manager) =>
            match getitem course_data "title" with
            | Raised e => {| served := Raised e; flashes := []; store := course_manager |}
            | Returned title =>
                {| served := Returned (Redirect "courses");
                   flashes :=
                     [ ("Course " +:+ quote +:+ str_of_value title +:+ quote
                        +:+ " added successfully!", "success") ];
                   store := course_manager |}
            end
        end
    end
  else
    {| served := Returned (Template "add_course.html" None); flashes := [];
       store := course_manager |}.

(** [/course/edit/<int:course_id>] *)
Definition edit_course (course_id : Z) (req : request) (now : string)
    (course_manager : CourseManager) : handled :=
  let course := get_course course_manager course_id in
  if negb (found course) then
    {| served := Returned (Redirect "courses");
       flashes := [ ("Course not found!", "error") ];
       store := course_manager |}
  else if bool_decide (method req = "POST") then
    match course_data_of (form req) with
    | Raised e => {| served := Raised e; flashes := []; store := course_manager |}
    | Returned course_data =>
        match update_course course_id course_data now course_manager with
        | (Raised e, course_manager) =>
            {| served := Raised e; flashes := []; store := course_manager |}
        | (Returned true, course_manager) =>
            match getitem course_data "title" with
            | Raised e => {| served := Raised e; flashes := []; store := course_manager |}
            | Returned title =>
                {| served := Returned (Redirect "courses");
                   flashes :=
                     [ ("Course " +:+ quote +:+ str_of_value title +:+ quote
                        +:+ " updated successfully!", "success") ];
                   store := course_manager |}
            end
        | (Returned false, course_manager) =>
            {| served := Returned (Redirect "courses");
               flashes := [ ("Failed to update course!", "error") ];
               store := course_manager |}
        end
    end
  else
    {| served := Returned (Template "edit_course.html" course); flashes := [];
       store := course_manager |}.

(** [/course/delete/<int:course_id>] *)
Definition delete_course (course_id : Z) (course_manager : CourseManager) : handled :=
  let course := get_course course_manager course_id in
  let failed :=
    {| served := Returned (Redirect "courses");
       flashes := [ ("Failed to delete course!", "error") ];
       store := course_manager |} in
  match course with
  | Some record =>
      if found course then
        match App.delete_course course_id course_manager with
        | (Raised e, course_manager) =>
            {| served := Raised e; flashes := []; store := course_manager |}
        | (Returned true, course_manager) =>
            match getitem record "title" with
            | Raised e =>
                {| served := Raised e; flashes := []; store := course_manager |}
            | Returned title =>
                {| served := Returned (Redirect "courses");
                   flashes :=
                     [ ("Course " +:+ quote +:+ str_of_value title +:+ quote
                        +:+ " deleted successfully!", "success") ];
                   store := course_manager |}
            end
        | (Returned false, course_manager) =>
            {| served := Returned (Redirect "courses");
               flashes := [ ("Failed to delete course!", "error") ];
               store := course_manager |}
        end
      else failed
  | None => failed
  end.

(** [chatbot.get_response(user_message)] on a value taken from JSON: only a
    string has [strip]. *)
Definition get_response_of (lower : string -> string) (self : IronLadyChatbot)
    (user_message : value) : io string :=
  match user_message with
  | VStr user_input => get_response lower self user_input
  | VInt _ => lift (Raised (AttributeError "'int' object has no attribute 'strip'"))
  end.

(** [/api/chat]: [data] is the JSON object of the request, [api_key] and
    [OpenAI] the environment the new chatbot is built in. The result is the
    ["response"] field of the JSON served. *)
Definition api_chat (lower : string -> string) (api_key : option string)
    (OpenAI : string -> outcome client) (data : gmap string value) : io string :=
  let user_message := default (VStr "") (data !! "message") in
  chatbot ← Chatbot.init api_key OpenAI;
  get_response_of lower chatbot user_message.

End Routes.

(** ** More sample objects *)
Module MoreExamples.

Import Feedback.

(** [int] on a string of ASCII digits. On other strings [int] raises
    [ValueError], or reads a sign, spaces or underscores, which this
    function does not follow: it serves to run the methods on digits. *)
Fixpoint digits_value (acc : Z) (s : string) : Z :=
  match s with
  | EmptyString => acc
  | String a s' => digits_value (10 * acc + (Z.of_nat (nat_of_ascii a) - 48)) s'
  end.

Definition int_of_digits (s : string) : outcome Z := Returned (digits_value 0 s).

Definition feedback_fields (rating text : string) : gmap string value :=
  list_to_map
    [ ("name", VStr "Asha");
      ("email", VStr "asha@example.org");
      ("course", VStr "Old");
      ("rating", VStr rating);
      ("feedback", VStr text) ].

Definition course_form (name : string) : gmap string string :=
  list_to_map
    [ ("title", name);
      ("description", "A course");
      ("duration", "1 month");
      ("format", "Online");
      ("price", "100");
      ("category", "General") ].

(** A store with a given client and given feedback, and no course. *)
Definition store_with (c : option client) (entries : list (gmap string value))
  : CourseManager :=
  {| courses := ∅; feedback := entries;
     next_course_id := 1; next_feedback_id := 1 + Z.of_nat (length entries);
     openai_client := c |}.

(** An environment without a key, and a clock that stands still. *)
Definition no_library : string -> outcome client :=
  fun _ => Raised (BackendError "no client library").

Definition still_clock : nat -> string := fun _ => "2024-01-01 09:00:00".

(** The store [__init__] builds in that environment. *)
Definition built_store : CourseManager :=
  (load_sample_data still_clock (store_with None [])).2.

(** Feedback, a deletion, feedback without its fields, a new course, and
    feedback again. *)
Definition history : list action :=
  [ AddFeedback (feedback_fields "5" "Great") "2024-02-01 10:00:00";
    OnCourses (DeleteCourse 2);
    AddFeedback ∅ "2024-02-01 10:00:01";
    OnCourses (AddCourse (course_fields "D") "2024-02-01 10:00:02" "2024-02-01 10:00:02");
    AddFeedback (feedback_fields "4" "Good") "2024-02-01 10:00:03" ].

Definition used_store : CourseManager := run int_of_digits history built_store.

(** An entry as [add_feedback] stores it. *)
Definition stored_entry (n : Z) : gmap string value :=
  list_to_map
    [ ("id", VInt n);
      ("name", VStr "Asha");
      ("email", VStr "asha@example.org");
      ("course", VStr "Old");
      ("rating", VInt 5);
      ("feedback", VStr "Great");
      ("created_at", VStr "2024-02-01 10:00:00") ].

Definition ten_entries : list (gmap string value) := stored_entry <$> seqZ 2 10.

Definition post (f : gmap string string) : Routes.request :=
  {| Routes.method := "POST"; Routes.form := f |}.

Definition get : Routes.request :=
  {| Routes.method := "GET"; Routes.form := ∅ |}.

End MoreExamples.

(** * Properties *)

(** ** Strings *)
Section Strings.

Implicit Types k s pre post : string.

Lemma startswith_spec k s :
  startswith k s = true ↔ ∃ post, s = k +:+ post.
Proof.
  revert s. induction k as [|a k IH]; intros s; simpl.
  - split; [intros _; by exists s | done].
  - destruct s as [|b s]; simpl.
    + split; [done | intros [post H]; discriminate H].
    + destruct (Ascii.eqb a b) eqn:E.
      * apply Ascii.eqb_eq in E as ->. rewrite IH.
        split; intros [post H]; exists post; [by rewrite H | by injection H].
      * apply Ascii.eqb_neq in E.
        split; [done | intros [post H]; injection H; congruence].
Qed.

Lemma str_in_spec k s : str_in k s = true ↔ occurs_in k s.
Proof.
  unfold occurs_in. induction s as [|a s IH]; simpl.
  - rewrite orb_false_r, startswith_spec. split.
    + intros [post H]. by exists "", post.
    + intros ([|b pre] & post & H); [by exists post | discriminate H].
  - rewrite orb_true_iff, startswith_spec, IH. split.
    + intros [[post H] | (pre & post & H)].
      * by exists "", post.
      * exists (String a pre), post. simpl. by rewrite H.
    + intros ([|b pre] & post & H).
      * left. by exists post.
      * right. exists pre, post. simpl in H. by injection H.
Qed.

Lemma str_in_false k s : str_in k s = false ↔ ¬ occurs_in k s.
Proof. rewrite <- str_in_spec. by destruct (str_in k s). Qed.

End Strings.

(** ** White space and [strip] *)
Section Whitespace.

Implicit Types s t u w r : string.

Lemma app_cons a s t : String a s +:+ t = String a (s +:+ t).
Proof. done. Qed.

Lemma byte_eq a n : nat_of_ascii a = n → a = ascii_of_nat n.
Proof. intros <-. by rewrite ascii_nat_embedding. Qed.

Ltac in_table := apply (bool_decide_unpack _); vm_compute; exact I.

Ltac to_bytes H :=
  rewrite ?orb_true_iff, ?andb_true_iff, ?orb_true_iff, ?andb_true_iff,
    ?Nat.eqb_eq, ?Nat.leb_le in H.

Lemma space1_table a : space1 a = true → String a "" ∈ WHITESPACE.
Proof.
  unfold space1. intros H. to_bytes H.
  assert (nat_of_ascii a ∈ [9; 10; 11; 12; 13; 28; 29; 30; 31; 32]%nat) as Hn
    by (rewrite !elem_of_cons; lia).
  rewrite !elem_of_cons in Hn.
  destruct_or!; try (by apply elem_of_nil in Hn);
    apply byte_eq in Hn as ->; in_table.
Qed.

Lemma space2_table a b :
  space2 a b = true → String a (String b "") ∈ WHITESPACE.
Proof.
  unfold space2. intros H. to_bytes H.
  destruct H as [Ha Hb]. apply byte_eq in Ha as ->.
  destruct Hb as [Hb|Hb]; apply byte_eq in Hb as ->; in_table.
Qed.

Lemma space3_table a b c :
  space3 a b c = true → String a (String b (String c "")) ∈ WHITESPACE.
Proof.
  unfold space3. intros H. to_bytes H.
  assert (nat_of_ascii c ∈ [128; 129; 130; 131; 132; 133; 134; 135; 136; 137;
                            138; 159; 168; 169; 175]%nat) as Hc
    by (rewrite !elem_of_cons; lia).
  rewrite !elem_of_cons in Hc.
  destruct_or!; try (by apply elem_of_nil in Hc); destruct_and?; try lia;
    repeat match goal with
           | E : nat_of_ascii _ = _ |- _ => apply byte_eq in E as ->
           end;
    in_table.
Qed.

Lemma app_nil_end s : s +:+ "" = s.
Proof. induction s as [|a s IH]; [done|]. by rewrite app_cons, IH. Qed.

Lemma app_assoc_str s t u : (s +:+ t) +:+ u = s +:+ t +:+ u.
Proof. induction s as [|a s IH]; [done|]. by rewrite !app_cons, IH. Qed.

Lemma app_length_str s t :
  String.length (s +:+ t) = (String.length s + String.length t)%nat.
Proof. induction s as [|a s IH]; [done|]. rewrite app_cons. simpl. by rewrite IH. Qed.

Lemma rev_app_spec s t : String.rev_app s t = String.rev s +:+ t.
Proof.
  unfold String.rev. revert t. induction s as [|a s IH]; intros t; simpl; [done|].
  rewrite (IH (String a t)), (IH (String a "")). by rewrite app_assoc_str.
Qed.

Lemma rev_cons a s : String.rev (String a s) = String.rev s +:+ String a "".
Proof. unfold String.rev at 1. simpl. apply rev_app_spec. Qed.

Lemma rev_length s : String.length (String.rev s) = String.length s.
Proof.
  induction s as [|a s IH]; [done|].
  rewrite rev_cons, app_length_str, IH. simpl. lia.
Qed.

Lemma rev_snoc s a : String.rev (s +:+ String a "") = String a (String.rev s).
Proof.
  induction s as [|b s IH]; [done|].
  by rewrite app_cons, !rev_cons, IH.
Qed.

Lemma rev_involutive s : String.rev (String.rev s) = s.
Proof.
  induction s as [|a s IH]; [done|]. by rewrite rev_cons, rev_snoc, IH.
Qed.

Lemma length_zero s : String.length s = 0%nat → s = "".
Proof. by destruct s. Qed.

(** The table read through the three byte tests. *)
Lemma whitespace_cases w :
  w ∈ WHITESPACE →
  (∃ a, w = String a "" ∧ space1 a = true)
  ∨ (∃ a b, w = String a (String b "") ∧ space1 a = false ∧ space1 b = false
            ∧ space2 a b = true)
  ∨ (∃ a b c, w = String a (String b (String c "")) ∧ space1 a = false
              ∧ space1 c = false ∧ space2 a b = false ∧ space2 b c = false
              ∧ space3 a b c = true).
Proof.
  intros H. apply list_elem_of_In in H. vm_compute in H.
  destruct_or!; try done; subst w;
    first [ left; eexists; split; [reflexivity|]; by vm_compute
          | right; left; do 2 eexists; split; [reflexivity|]; by vm_compute
          | right; right; do 3 eexists; split; [reflexivity|]; by vm_compute ].
Qed.

Lemma lstrip_whitespace w s : w ∈ WHITESPACE → lstrip (w +:+ s) = lstrip s.
Proof.
  intros [(a & -> & H1) | [(a & b & -> & H1 & _ & H2)
    | (a & b & c & -> & H1 & _ & H2 & _ & H3)]]%whitespace_cases;
    rewrite ?app_cons; simpl; by rewrite ?H1, ?H2, ?H3.
Qed.

Lemma lstrip_rev_whitespace w r :
  w ∈ WHITESPACE → lstrip_rev (String.rev w +:+ r) = lstrip_rev r.
Proof.
  intros [(a & -> & H1) | [(a & b & -> & _ & H1 & H2)
    | (a & b & c & -> & _ & H1 & _ & H2 & H3)]]%whitespace_cases;
    vm_compute String.rev; rewrite ?app_cons; simpl; by rewrite ?H1, ?H2, ?H3.
Qed.

Lemma lstrip_cases s :
  lstrip s = s
  ∨ ∃ w s', w ∈ WHITESPACE ∧ s = w +:+ s' ∧ lstrip s = lstrip s'.
Proof.
  destruct s as [|a s1]; [by left|]. simpl.
  destruct (space1 a) eqn:E1.
  { right. exists (String a ""), s1. eauto using space1_table. }
  destruct s1 as [|b s2]; [by left|].
  destruct (space2 a b) eqn:E2.
  { right. exists (String a (String b "")), s2. eauto using space2_table. }
  destruct s2 as [|c s3]; [by left|].
  destruct (space3 a b c) eqn:E3; [|by left].
  right. exists (String a (String b (String c ""))), s3. eauto using space3_table.
Qed.

Lemma lstrip_rev_cases r :
  lstrip_rev r = r
  ∨ ∃ w r', w ∈ WHITESPACE ∧ r = String.rev w +:+ r' ∧ lstrip_rev r = lstrip_rev r'.
Proof.
  destruct r as [|a r1]; [by left|]. simpl.
  destruct (space1 a) eqn:E1.
  { right. exists (String a ""), r1. eauto using space1_table. }
  destruct r1 as [|b r2]; [by left|].
  destruct (space2 b a) eqn:E2.
  { right. exists (String b (String a "")), r2. eauto using space2_table. }
  destruct r2 as [|c r3]; [by left|].
  destruct (space3 c b a) eqn:E3; [|by left].
  right. exists (String c (String b (String a ""))), r3. eauto using space3_table.
Qed.

Lemma whitespace_nonempty w : w ∈ WHITESPACE → (0 < String.length w)%nat.
Proof.
  intros [(a & -> & _) | [(a & b & -> & _) | (a & b & c & -> & _)]]%whitespace_cases;
    simpl; lia.
Qed.

Lemma whitespace_only_app s t :
  whitespace_only s → whitespace_only t → whitespace_only (s +:+ t).
Proof.
  induction 1 as [|w s Hw Hs IH]; intros Ht; [done|].
  rewrite app_assoc_str. constructor; auto.
Qed.

Lemma lstrip_whitespace_only s : whitespace_only s → lstrip s = "".
Proof. induction 1 as [|w s Hw Hs IH]; [done|]. by rewrite lstrip_whitespace. Qed.

Lemma lstrip_empty s : lstrip s = "" → whitespace_only s.
Proof.
  remember (String.length s) as n eqn:Hn. revert s Hn.
  induction n as [n IH] using lt_wf_ind. intros s -> H.
  destruct (lstrip_cases s) as [E | (w & s' & Hw & -> & E)].
  - rewrite <- E, H. constructor.
  - constructor; [done|]. eapply IH; [|done|congruence].
    rewrite app_length_str. apply whitespace_nonempty in Hw. lia.
Qed.

Lemma lstrip_idemp s : lstrip (lstrip s) = lstrip s.
Proof.
  remember (String.length s) as n eqn:Hn. revert s Hn.
  induction n as [n IH] using lt_wf_ind. intros s ->.
  destruct (lstrip_cases s) as [E | (w & s' & Hw & -> & E)].
  - by rewrite !E.
  - rewrite E. eapply IH; [|done].
    rewrite app_length_str. apply whitespace_nonempty in Hw. lia.
Qed.

Lemma lstrip_rev_empty r : lstrip_rev r = "" → whitespace_only (String.rev r).
Proof.
  remember (String.length r) as n eqn:Hn. revert r Hn.
  induction n as [n IH] using lt_wf_ind. intros r -> H.
  destruct (lstrip_rev_cases r) as [E | (w & r' & Hw & -> & E)].
  - rewrite <- E, H. constructor.
  - assert (String.rev (String.rev w +:+ r') = String.rev r' +:+ w) as ->.
    { clear. rewrite <- (rev_involutive w) at 2.
      generalize (String.rev w) as v. intros v.
      induction v as [|a v IHv]; [by rewrite app_nil_end|].
      rewrite app_cons, !rev_cons, IHv. by rewrite app_assoc_str. }
    apply whitespace_only_app.
    + eapply IH; [|done|congruence].
      rewrite app_length_str, rev_length. apply whitespace_nonempty in Hw. lia.
    + rewrite <- (app_nil_end w). apply blank_more; [done | constructor].
Qed.

(** [s.strip()] is empty exactly when [s] is empty or white space only. *)
Lemma strip_empty s : strip s = "" ↔ whitespace_only s.
Proof.
  split.
  - unfold strip, rstrip. intros H.
    assert (lstrip_rev (String.rev (lstrip s)) = "") as H'.
    { apply length_zero. by rewrite <- rev_length, H. }
    apply lstrip_rev_empty in H'. rewrite rev_involutive in H'.
    apply lstrip_whitespace_only in H'. rewrite lstrip_idemp in H'.
    by apply lstrip_empty.
  - intros H. unfold strip. by rewrite (lstrip_whitespace_only _ H).
Qed.

End Whitespace.

(** ** Intent resolution *)
Section Intent.

Implicit Types (items : list (string * list string)) (kws : list string).

Lemma any_keyword_in_spec kws text :
  any_keyword_in kws text = true ↔ matches kws text.
Proof.
  unfold any_keyword_in, matches. rewrite existsb_exists.
  setoid_rewrite <- list_elem_of_In. by setoid_rewrite str_in_spec.
Qed.

Lemma first_match_spec items text :
  match first_match items text with
  | Some intent =>
      ∃ before kws after,
        items = before ++ (intent, kws) :: after
        ∧ matches kws text
        ∧ Forall (fun item => ¬ matches item.2 text) before
  | None => Forall (fun item => ¬ matches item.2 text) items
  end.
Proof.
  induction items as [|[intent kws] items IH]; simpl; [by constructor|].
  destruct (any_keyword_in kws text) eqn:E.
  - apply any_keyword_in_spec in E. by exists [], kws, items.
  - assert (¬ matches kws text) as N
      by (rewrite <- any_keyword_in_spec; congruence).
    destruct (first_match items text) as [found|].
    + destruct IH as (before & kws' & after & -> & M & B).
      exists ((intent, kws) :: before), kws', after. by repeat constructor.
    + by constructor.
Qed.

(** Every topic of the keyword table has an entry in [FAQ_DATA]; its canned
    answer is the [answer] field of that entry, and neither the topic's name
    nor the answer is empty. *)
Lemma topic_entry c intent kws :
  (intent, kws) ∈ KEYWORDS →
  ∃ entry, FAQ_DATA !! intent = Some entry
           ∧ get_faq_response (with_client c) intent = Some (answer entry)
           ∧ truthy intent = true ∧ truthy (answer entry) = true.
Proof.
  unfold KEYWORDS. rewrite !elem_of_cons, elem_of_nil.
  intros H. destruct_or!; try done; simplify_eq;
    (eexists; split_and!; by vm_compute).
Qed.

(** C2: on every input, [find_intent] works on the lower-cased input and
    goes through the topics in the order programs, duration, format,
    certificates, mentors. What it returns is the first topic of that order
    one of whose keywords occurs in the lower-cased input, no topic listed
    before it having such a keyword; it returns [None] exactly when no
    keyword of any topic occurs. *)
Theorem find_intent_first_topic_wins
    (lower : string → string) (c : option client) (user_input : string) :
  let self := with_client c in
  let text := lower user_input in
  (keywords self).*1 = ["programs"; "duration"; "format"; "certificates"; "mentors"]
  ∧ match find_intent lower self user_input with
    | Some intent =>
        ∃ before kws after,
          keywords self = before ++ (intent, kws) :: after
          ∧ matches kws text
          ∧ Forall (fun item => ¬ matches item.2 text) before
    | None => Forall (fun item => ¬ matches item.2 text) (keywords self)
    end.
Proof. split; [done|]. apply first_match_spec. Qed.

End Intent.

Example find_intent_examples :
  find_intent ascii_lower (with_client None) "How LONG is it?" = Some "duration"
  ∧ find_intent ascii_lower (with_client None) "Is there a CERTIFICATE online?"
    = Some "format"
  ∧ find_intent ascii_lower (with_client None) "hello" = None.
Proof. split_and!; vm_compute; reflexivity. Qed.

(** ** Replies *)
Section Replies.

Variable lower : string → string.

Lemma nonblank_truthy s : ¬ whitespace_only s → truthy (strip s) = true.
Proof. rewrite <- strip_empty. by destruct (strip s). Qed.

Lemma blank_falsy s : whitespace_only s → truthy (strip s) = false.
Proof. intros H%strip_empty. by rewrite H. Qed.

Lemma get_ai_response_absent self user_input context :
  Chatbot.openai_client self = None →
  get_ai_response self user_input context = ([], Returned None).
Proof. intros H. unfold get_ai_response. by rewrite H. Qed.

(** With a client, [get_ai_response] makes one call and never raises: the
    stripped text of the response, or nothing when the attempt failed. *)
Lemma get_ai_response_configured self c user_input context :
  Chatbot.openai_client self = Some c →
  ∃ r, get_ai_response self user_input context =
       match c r ≫= stripped_content with
       | Returned text => ([Call r], Returned (Some text))
       | Raised e =>
           ([Call r; Print ("AI response error: " +:+ str_of_exn e)], Returned None)
       end.
Proof.
  intros H. unfold get_ai_response. rewrite H.
  match goal with |- context [create c ?req] => exists req; unfold create;
    destruct (c req) as [resp|e] end; [|done].
  cbn. by destruct (stripped_content resp).
Qed.

(** What [get_response] falls back on when the backend gave no text. *)
Lemma get_response_fallback self user_input t :
  ¬ whitespace_only user_input →
  get_ai_response self user_input
    (or_empty (match find_intent lower self user_input with
               | Some i => if truthy i then get_faq_response self i else None
               | None => None
               end)) = (t, Returned None) →
  result (get_response lower self user_input) =
    Returned (match find_intent lower self user_input with
              | Some i =>
                  if truthy i
                  then default MENU (if_truthy (get_faq_response self i))
                  else MENU
              | None => MENU
              end).
Proof.
  intros Hs Hai. unfold get_response. rewrite (nonblank_truthy _ Hs). cbn [negb].
  cbv zeta. rewrite Hai.
  destruct (find_intent lower self user_input) as [i|]; [|done].
  destruct (truthy i); [|done].
  by destruct (if_truthy (get_faq_response self i)).
Qed.

Lemma find_intent_listed c user_input intent :
  find_intent lower (with_client c) user_input = Some intent →
  ∃ kws, (intent, kws) ∈ KEYWORDS ∧ matches kws (lower user_input).
Proof.
  unfold find_intent. cbn [keywords with_client]. intros H.
  pose proof (first_match_spec KEYWORDS (lower user_input)) as S.
  rewrite H in S. destruct S as (before & kws & after & E & M & _).
  exists kws. split; [|done]. rewrite E, elem_of_app. right. by left.
Qed.

Lemma find_intent_only_topic c user_input intent kws :
  (intent, kws) ∈ KEYWORDS →
  matches kws (lower user_input) →
  (∀ intent' kws', (intent', kws') ∈ KEYWORDS → intent' ≠ intent →
                   ¬ matches kws' (lower user_input)) →
  find_intent lower (with_client c) user_input = Some intent.
Proof.
  intros Hin Hm Hothers.
  destruct (find_intent lower (with_client c) user_input) as [found|] eqn:E.
  - destruct (decide (found = intent)) as [->|Hne]; [done|].
    apply find_intent_listed in E as (kws' & Hin' & Hm').
    by destruct (Hothers found kws').
  - unfold find_intent in E. cbn [keywords with_client] in E.
    pose proof (first_match_spec KEYWORDS (lower user_input)) as S.
    rewrite E in S. rewrite Forall_forall in S. by destruct (S _ Hin).
Qed.

(** The reply when no text came from the backend, on the fixed tables. *)
Lemma canned_or_menu c user_input :
  ¬ whitespace_only user_input →
  (∀ context, ∃ t, get_ai_response (with_client c) user_input context = (t, Returned None)) →
  let self := with_client c in
  match find_intent lower self user_input with
  | Some intent =>
      ∃ entry, FAQ_DATA !! intent = Some entry
               ∧ result (get_response lower self user_input) = Returned (answer entry)
  | None => result (get_response lower self user_input) = Returned MENU
  end.
Proof.
  intros Hs Hai self. subst self.
  edestruct Hai as [t' Ht'].
  rewrite (get_response_fallback _ user_input t' Hs Ht').
  destruct (find_intent lower _ user_input) as [intent|] eqn:E; [|done].
  apply find_intent_listed in E as (kws & Hin & _).
  destruct (topic_entry c intent kws Hin) as (entry & He & Hr & Hi & Ht).
  exists entry. split; [done|]. rewrite Hi, Hr.
  unfold if_truthy. by rewrite Ht.
Qed.

(** C1, amended: input that is not blank and whose lower-cased text holds a
    keyword of one topic and of no other gets, without a backend, that
    topic's canned answer, the [answer] field of the topic's entry in
    [FAQ_DATA], and nothing is called or printed. *)
Theorem single_topic_reply user_input intent kws :
  ¬ whitespace_only user_input →
  (intent, kws) ∈ KEYWORDS →
  matches kws (lower user_input) →
  (∀ intent' kws', (intent', kws') ∈ KEYWORDS → intent' ≠ intent →
                   ¬ matches kws' (lower user_input)) →
  ∃ entry, FAQ_DATA !! intent = Some entry
           ∧ get_response lower (with_client None) user_input
             = ([], Returned (answer entry)).
Proof.
  intros Hs Hin Hm Hothers.
  pose proof (find_intent_only_topic None user_input intent kws Hin Hm Hothers) as E.
  destruct (topic_entry None intent kws Hin) as (entry & He & Hr & Hi & Ht).
  exists entry. split; [done|].
  unfold get_response. rewrite (nonblank_truthy _ Hs), E, Hi, Hr.
  rewrite get_ai_response_absent by done.
  cbn. unfold if_truthy. by rewrite Ht.
Qed.

(** C3: on input that is not blank, a configured backend whose calls fail
    leaves the reply to the canned answer of the resolved topic, the
    [answer] field of the topic's entry in [FAQ_DATA], or to the menu when
    no topic was resolved; [get_response] returns, it does not raise. *)
Theorem backend_failure_falls_back (c : client) user_input :
  ¬ whitespace_only user_input →
  (∀ r, fails (c r)) →
  let self := with_client (Some c) in
  match find_intent lower self user_input with
  | Some intent =>
      ∃ entry, FAQ_DATA !! intent = Some entry
               ∧ result (get_response lower self user_input) = Returned (answer entry)
  | None => result (get_response lower self user_input) = Returned MENU
  end.
Proof.
  intros Hs Hfail. apply canned_or_menu; [done|]. intros context.
  destruct (get_ai_response_configured (with_client (Some c)) c user_input context)
    as [r ->]; [done|].
  destruct (Hfail r) as [e ->]. eauto.
Qed.

(** C4, amended: on input that is not blank, when the backend returns text
    that is not blank, the reply is that text without its leading and
    trailing white space, whatever the tables hold. *)
Theorem backend_success_reply self (c : client) user_input text :
  ¬ whitespace_only user_input →
  Chatbot.openai_client self = Some c →
  (∀ r, returns_text (c r) text) →
  ¬ whitespace_only text →
  result (get_response lower self user_input) = Returned (strip text).
Proof.
  intros Hs Hc Htext Hnb.
  unfold get_response. rewrite (nonblank_truthy _ Hs). cbn [negb]. cbv zeta.
  match goal with |- context [get_ai_response self user_input ?ctx] =>
    destruct (get_ai_response_configured self c user_input ctx Hc) as [r ->]
  end.
  destruct (Htext r) as [rest ->]. cbn.
  unfold if_truthy. by rewrite (nonblank_truthy _ Hnb).
Qed.

(** C5: blank input gets the fixed prompt, whatever the client and the
    tables of the object are; the backend is not called and nothing is
    printed. *)
Theorem blank_input_prompt self user_input :
  whitespace_only user_input →
  result (get_response lower self user_input) = Returned PROMPT_FOR_INPUT
  ∧ calls (get_response lower self user_input) = []
  ∧ events (get_response lower self user_input) = [].
Proof.
  intros Hs. unfold get_response. by rewrite (blank_falsy _ Hs).
Qed.

End Replies.

(** ** The replies at concrete inputs *)

Lemma not_blank s : truthy (strip s) = true → ¬ whitespace_only s.
Proof. rewrite <- strip_empty. intros H E. by rewrite E in H. Qed.

Lemma matches_by_test kws text : any_keyword_in kws text = true → matches kws text.
Proof. apply any_keyword_in_spec. Qed.

Lemma no_match_by_test kws text : any_keyword_in kws text = false → ¬ matches kws text.
Proof. rewrite <- any_keyword_in_spec. congruence. Qed.

Lemma single_topic_reply_witness :
  let kws := ["duration"; "time"; "long"; "period"; "months"; "weeks"] in
  ¬ whitespace_only "How LONG is it?"
  ∧ ("duration", kws) ∈ KEYWORDS
  ∧ matches kws (ascii_lower "How LONG is it?")
  ∧ ∃ entry, FAQ_DATA !! "duration" = Some entry
             ∧ get_response ascii_lower (with_client None) "How LONG is it?"
               = ([], Returned (answer entry)).
Proof.
  intros kws.
  assert (¬ whitespace_only "How LONG is it?") as Hs
    by (apply not_blank; vm_compute; reflexivity).
  assert (("duration", kws) ∈ KEYWORDS) as Hin
    by (apply (bool_decide_unpack _); vm_compute; exact I).
  assert (matches kws (ascii_lower "How LONG is it?")) as Hm
    by (apply matches_by_test; vm_compute; reflexivity).
  split_and!; [exact Hs | exact Hin | exact Hm |].
  apply (single_topic_reply ascii_lower "How LONG is it?" "duration" kws Hs Hin Hm).
  intros intent' kws' Hin' Hne. apply no_match_by_test.
  unfold KEYWORDS in Hin'. rewrite !elem_of_cons, elem_of_nil in Hin'.
  destruct_or!; simplify_eq; vm_compute; reflexivity.
Defined.

(** C1, as stated, fails on its own example: "how long is the program" also
    holds "program", a keyword of the topic listed first, so the reply is
    not the duration answer. *)
Lemma how_long_is_the_program_counterexample :
  ∃ entry, FAQ_DATA !! "duration" = Some entry
           ∧ result (get_response ascii_lower (with_client None)
                       "how long is the program") ≠ Returned (answer entry).
Proof. eexists. split; [vm_compute; reflexivity|]. vm_compute. discriminate. Qed.

Example how_long_is_the_program_reply :
  find_intent ascii_lower (with_client None) "how long is the program" = Some "programs"
  ∧ (Returned ∘ answer) <$> FAQ_DATA !! "programs"
    = Some (result (get_response ascii_lower (with_client None) "how long is the program")).
Proof. split; vm_compute; reflexivity. Qed.

Lemma blank_by_test s : strip s = "" → whitespace_only s.
Proof. apply strip_empty. Qed.

Lemma fails_by_raising (c : client) e : (∀ r, c r = Raised e) → ∀ r, fails (c r).
Proof. intros H r. exists e. by rewrite H. Qed.

Lemma backend_failure_falls_back_witness :
  ¬ whitespace_only "How LONG is it?"
  ∧ (∀ r, fails (failing r))
  ∧ let self := with_client (Some failing) in
    match find_intent ascii_lower self "How LONG is it?" with
    | Some intent =>
        ∃ entry, FAQ_DATA !! intent = Some entry
                 ∧ result (get_response ascii_lower self "How LONG is it?")
                   = Returned (answer entry)
    | None =>
        result (get_response ascii_lower self "How LONG is it?") = Returned MENU
    end.
Proof.
  assert (¬ whitespace_only "How LONG is it?") as Hs
    by (apply not_blank; vm_compute; reflexivity).
  assert (∀ r, fails (failing r)) as Hf
    by (apply (fails_by_raising failing (BackendError "timeout")); reflexivity).
  split; [exact Hs|]. split; [exact Hf|].
  exact (backend_failure_falls_back ascii_lower failing "How LONG is it?" Hs Hf).
Defined.

Example backend_failure_duration :
  result (get_response ascii_lower (with_client (Some failing)) "How LONG is it?")
  = default (Returned "") ((Returned ∘ answer) <$> FAQ_DATA !! "duration").
Proof. vm_compute. reflexivity. Qed.

(** Input of spaces only never reaches the backend: it is blank. *)
Example backend_failure_blank :
  get_response ascii_lower (with_client (Some failing)) "   "
  = ([], Returned PROMPT_FOR_INPUT).
Proof. vm_compute. reflexivity. Qed.

Example backend_failure_menu :
  result (get_response ascii_lower (with_client (Some failing)) "hello") = Returned MENU.
Proof. vm_compute. reflexivity. Qed.

(** C4, as stated, fails: text that comes back with white space around it
    is not returned as it came, and text that is white space only is not
    returned at all. *)
Lemma backend_text_not_verbatim :
  result (get_response ascii_lower (with_client (Some (answering "  Six months.  ")))
            "How LONG is it?") ≠ Returned "  Six months.  "
  ∧ result (get_response ascii_lower (with_client (Some (answering "   ")))
              "How LONG is it?") ≠ Returned "   ".
Proof. split; vm_compute; discriminate. Qed.

Example backend_text_stripped :
  result (get_response ascii_lower (with_client (Some (answering "  Six months.  ")))
            "How LONG is it?") = Returned "Six months.".
Proof. vm_compute. reflexivity. Qed.

Example backend_text_blank :
  result (get_response ascii_lower (with_client (Some (answering "   "))) "How LONG is it?")
  = result (get_response ascii_lower (with_client None) "How LONG is it?").
Proof. vm_compute. reflexivity. Qed.

Lemma backend_success_reply_witness :
  ¬ whitespace_only "How LONG is it?"
  ∧ (∀ r, returns_text (answering "  Six months.  " r) "  Six months.  ")
  ∧ ¬ whitespace_only "  Six months.  "
  ∧ result (get_response ascii_lower (with_client (Some (answering "  Six months.  ")))
              "How LONG is it?") = Returned (strip "  Six months.  ").
Proof.
  assert (¬ whitespace_only "How LONG is it?") as Hs
    by (apply not_blank; vm_compute; reflexivity).
  assert (∀ r, returns_text (answering "  Six months.  " r) "  Six months.  ") as Hr
    by (intros r; exists []; reflexivity).
  assert (¬ whitespace_only "  Six months.  ") as Ht
    by (apply not_blank; vm_compute; reflexivity).
  split_and!; [exact Hs | exact Hr | exact Ht |].
  exact (backend_success_reply ascii_lower
           (with_client (Some (answering "  Six months.  ")))
           (answering "  Six months.  ") "How LONG is it?" "  Six months.  "
           Hs eq_refl Hr Ht).
Defined.

(** A tab, a space, a no-break space (U+00A0) and an ideographic space
    (U+3000). *)
Lemma blank_input_prompt_witness :
  let blank := chr 9 +:+ " " +:+ encoded [194; 160]%nat +:+ encoded [227; 128; 128]%nat in
  whitespace_only blank
  ∧ result (get_response ascii_lower (with_client (Some failing)) blank)
    = Returned PROMPT_FOR_INPUT
  ∧ calls (get_response ascii_lower (with_client (Some failing)) blank) = []
  ∧ events (get_response ascii_lower (with_client (Some failing)) blank) = [].
Proof.
  intros blank.
  assert (whitespace_only blank) as Hs by (apply blank_by_test; vm_compute; reflexivity).
  split; [exact Hs|].
  exact (blank_input_prompt ascii_lower (with_client (Some failing)) blank Hs).
Defined.

(** ** The course store *)
Section Store.

Implicit Types (self : CourseManager) (course_data record : gmap string value).

Lemma complete_fields course_data :
  complete course_data →
  ∃ t d u f p c,
    course_data !! "title" = Some t ∧ course_data !! "description" = Some d
    ∧ course_data !! "duration" = Some u ∧ course_data !! "format" = Some f
    ∧ course_data !! "price" = Some p ∧ course_data !! "category" = Some c.
Proof.
  unfold complete, FIELDS. rewrite !Forall_cons.
  intros ([t ?] & [d ?] & [u ?] & [f ?] & [p ?] & [c ?] & _).
  by exists t, d, u, f, p, c.
Qed.

Lemma bind_returned {A B : Type} (m : outcome A) (f : A → outcome B) b :
  m ≫= f = Returned b → ∃ a, m = Returned a ∧ f a = Returned b.
Proof. destruct m as [a|e]; [by exists a | done]. Qed.

Lemma new_record_complete course_id course_data created updated :
  complete course_data →
  ∃ record, new_record course_id course_data created updated = Returned record
            ∧ record !! "id" = Some (VInt course_id).
Proof.
  intros (t & d & u & f & p & c & Ht & Hd & Hu & Hf & Hp & Hc)%complete_fields.
  unfold new_record, getitem. rewrite Ht, Hd, Hu, Hf, Hp, Hc. cbn.
  eexists. split; [done|]. by vm_compute.
Qed.

Lemma new_record_id course_id course_data created updated record :
  new_record course_id course_data created updated = Returned record →
  record !! "id" = Some (VInt course_id).
Proof.
  unfold new_record. intros H.
  repeat apply bind_returned in H as (? & _ & H).
  injection H as <-. by vm_compute.
Qed.

(** [add_course] hands out [next_course_id] and moves it on by one, or
    raises and changes nothing. *)
Lemma add_course_cases course_data created updated self :
  (∃ record,
      new_record (next_course_id self) course_data created updated = Returned record
      ∧ add_course course_data created updated self
        = (Returned (next_course_id self),
           set_next_course_id (next_course_id self + 1)
             (set_courses (<[next_course_id self := record]> (courses self)) self)))
  ∨ (∃ e, add_course course_data created updated self = (Raised e, self)).
Proof.
  unfold add_course.
  destruct (new_record _ _ _ _) as [record|e]; [left|right]; eauto.
Qed.

Lemma add_course_complete course_data created updated self :
  complete course_data →
  (add_course course_data created updated self).1 = Returned (next_course_id self).
Proof.
  intros H. unfold add_course.
  by destruct (new_record_complete (next_course_id self) course_data created updated H)
    as (record & -> & _).
Qed.

(** What one call does to the counter and to the keys in use. *)
Lemma perform_step c self :
  ids_below_next self →
  ids_below_next (perform c self).2
  ∧ match assigned_id (perform c self).1 with
    | Some course_id =>
        course_id = next_course_id self
        ∧ next_course_id (perform c self).2 = next_course_id self + 1
    | None => next_course_id (perform c self).2 = next_course_id self
    end.
Proof.
  unfold ids_below_next. intros Hinv.
  destruct c as [course_data created updated|course_id course_data now|course_id];
    simpl.
  - destruct (add_course_cases course_data created updated self)
      as [(record & _ & ->) | (e & ->)]; simpl; [|done].
    split; [|done]. intros k. rewrite lookup_insert. case_decide as E.
    + subst k. lia.
    + intros Hk%Hinv. lia.
  - unfold update_course. destruct (courses self !! course_id) as [record|] eqn:E; [|done].
    destruct (changes course_data now) as [new|e]; simpl; [|done].
    split; [|done]. intros k. rewrite lookup_insert. case_decide as E'; [|by auto].
    subst k. intros _. apply Hinv. by rewrite E.
  - unfold delete_course. destruct (courses self !! course_id) as [record|] eqn:E; [|done].
    simpl. split; [|done]. intros k. rewrite lookup_delete. case_decide; [by intros []|by auto].
Qed.

Lemma session_cons c cs self :
  session (c :: cs) self
  = ((perform c self).1 :: (session cs (perform c self).2).1,
     self :: (session cs (perform c self).2).2).
Proof.
  simpl. destruct (perform c self) as [r self']. simpl.
  by destruct (session cs self').
Qed.

Lemma assigned_ids_cons c cs self :
  assigned_ids (c :: cs) self
  = match assigned_id (perform c self).1 with
    | Some course_id => course_id :: assigned_ids cs (perform c self).2
    | None => assigned_ids cs (perform c self).2
    end.
Proof. unfold assigned_ids. rewrite session_cons. simpl. by destruct (assigned_id _). Qed.

(** The identifiers handed out are consecutive from the counter on. *)
Lemma assigned_ids_consecutive cs self :
  ids_below_next self →
  assigned_ids cs self
  = seqZ (next_course_id self) (Z.of_nat (length (assigned_ids cs self))).
Proof.
  revert self. induction cs as [|c cs IH]; intros self Hinv; [done|].
  rewrite assigned_ids_cons.
  destruct (perform_step c self Hinv) as [Hinv' Hstep].
  destruct (assigned_id (perform c self).1) as [course_id|].
  - destruct Hstep as [-> Hnext]. rewrite length_cons, seqZ_cons by lia.
    f_equal. rewrite (IH _ Hinv') at 1. rewrite Hnext. f_equal; lia.
  - rewrite (IH _ Hinv') at 1. by rewrite Hstep.
Qed.

Lemma assigned_ids_count cs self :
  Forall well_formed cs → length (assigned_ids cs self) = adds cs.
Proof.
  unfold adds. revert self. induction cs as [|c cs IH]; intros self Hwf; [done|].
  apply Forall_cons in Hwf as [Hc Hcs]. rewrite assigned_ids_cons.
  destruct c as [course_data created updated|course_id course_data now|course_id].
  - rewrite filter_cons_True by done. simpl.
    destruct (add_course_cases course_data created updated self)
      as [(record & _ & E) | (e & E)].
    + rewrite E. simpl. by rewrite IH.
    + pose proof (add_course_complete course_data created updated self Hc) as E'.
      by rewrite E in E'.
  - rewrite filter_cons_False by (by intros []). simpl.
    destruct (update_course _ _ _ _) as [r self']. simpl. by apply IH.
  - rewrite filter_cons_False by (by intros []). simpl.
    destruct (delete_course _ _) as [r self']. simpl. by apply IH.
Qed.

(** An identifier handed out later was not in use at any earlier time. *)
Lemma assigned_id_fresh cs self j course_id :
  ids_below_next self →
  (session cs self).1 !! j = Some (Id (Returned course_id)) →
  next_course_id self ≤ course_id
  ∧ ∀ i store, (i ≤ j)%nat → (session cs self).2 !! i = Some store →
               courses store !! course_id = None.
Proof.
  revert self j. induction cs as [|c cs IH]; intros self j Hinv; [done|].
  rewrite session_cons. cbn [fst snd].
  destruct (perform_step c self Hinv) as [Hinv' Hstep].
  assert (next_course_id self ≤ next_course_id (perform c self).2) as Hmono.
  { destruct (assigned_id _); lia. }
  assert (∀ k, next_course_id self ≤ k → courses self !! k = None) as Hfree.
  { intros k Hk. apply eq_None_not_Some. intros Hsome%Hinv. lia. }
  destruct j as [|j]; simpl.
  - intros [= E]. rewrite E in Hstep. simpl in Hstep. destruct Hstep as [-> _].
    split; [lia|]. intros i store Hi. assert (i = 0%nat) as -> by lia.
    simpl. intros [= <-]. apply Hfree. lia.
  - intros Hj. destruct (IH _ j Hinv' Hj) as [Hle Hstores].
    split; [lia|]. intros [|i] store Hi; simpl.
    + intros [= <-]. apply Hfree. lia.
    + apply Hstores. lia.
Qed.

End Store.

Section StoreProperties.

Implicit Types (self : CourseManager) (course_data record : gmap string value).

(** C6: from an empty store whose counter is 1, the identifiers that the
    [add_course] calls of a session return are 1, 2, ..., N in this order,
    one for each call when the calls carry their six fields; and an
    identifier handed out was in use in no store before, so a deleted
    course's identifier does not come back. *)
Theorem course_ids_sequential (cs : list call) self :
  courses self = ∅ →
  next_course_id self = 1 →
  let ids := assigned_ids cs self in
  ids = seqZ 1 (Z.of_nat (length ids))
  ∧ (Forall well_formed cs → length ids = adds cs)
  ∧ (∀ j course_id,
       (session cs self).1 !! j = Some (Id (Returned course_id)) →
       ∀ i store, (i ≤ j)%nat → (session cs self).2 !! i = Some store →
                  courses store !! course_id = None).
Proof.
  intros Hempty Hnext ids.
  assert (ids_below_next self) as Hinv.
  { intros k. rewrite Hempty, lookup_empty. by intros []. }
  split_and!.
  - subst ids. rewrite <- Hnext. by apply assigned_ids_consecutive.
  - apply assigned_ids_count.
  - intros j course_id Hj. by apply (assigned_id_fresh cs self j course_id Hinv Hj).
Qed.

(** C7: on an identifier that is not in the store, [update_course] and
    [delete_course] return [False] and leave the whole object as it was,
    whatever [course_data] holds. *)
Theorem absent_id_changes_nothing self (course_id : Z) course_data (now : string) :
  courses self !! course_id = None →
  update_course course_id course_data now self = (Returned false, self)
  ∧ delete_course course_id self = (Returned false, self).
Proof. intros H. unfold update_course, delete_course. by rewrite H. Qed.

(** C8: on an identifier that is in the store, with the six fields
    supplied, [update_course] returns [True]; the record then holds the six
    supplied values and the new time stamp, every other key of it,
    ["id"] and ["created_at"] among them, is as before, and so are the other
    records, the feedback and the two counters. *)
Theorem update_course_frame self (course_id : Z) record course_data (now : string) :
  courses self !! course_id = Some record →
  complete course_data →
  ∃ self' record',
    update_course course_id course_data now self = (Returned true, self')
    ∧ courses self' !! course_id = Some record'
    ∧ (∀ key, key ∈ FIELDS → record' !! key = course_data !! key)
    ∧ record' !! "updated_at" = Some (VStr now)
    ∧ record' !! "id" = record !! "id"
    ∧ record' !! "created_at" = record !! "created_at"
    ∧ (∀ key, key ∉ "updated_at" :: FIELDS → record' !! key = record !! key)
    ∧ (∀ other, other ≠ course_id → courses self' !! other = courses self !! other)
    ∧ feedback self' = feedback self
    ∧ next_course_id self' = next_course_id self
    ∧ next_feedback_id self' = next_feedback_id self
    ∧ openai_client self' = openai_client self.
Proof.
  intros Hrec (t & d & u & f & p & c & Ht & Hd & Hu & Hf & Hp & Hc)%complete_fields.
  unfold update_course. rewrite Hrec.
  unfold changes, getitem. rewrite Ht, Hd, Hu, Hf, Hp, Hc. cbn.
  do 2 eexists. split; [reflexivity|]. cbn [courses set_courses feedback
    next_course_id next_feedback_id openai_client].
  rewrite lookup_insert_eq. split; [reflexivity|].
  unfold dict_update.
  match goal with |- context [?n ∪ record] => set (new := n) end.
  assert (∀ key, key ∉ "updated_at" :: FIELDS → (new ∪ record) !! key = record !! key)
    as Hframe.
  { intros key Hkey. apply lookup_union_r.
    unfold FIELDS in Hkey. rewrite !not_elem_of_cons in Hkey. destruct_and!.
    subst new. rewrite !lookup_insert_ne by done. apply lookup_empty. }
  assert (∀ key v, new !! key = Some v → (new ∪ record) !! key = Some v) as Hnew.
  { intros key v. apply lookup_union_Some_l. }
  split_and!; try done.
  - intros key Hkey. unfold FIELDS in Hkey. rewrite !elem_of_cons, elem_of_nil in Hkey.
    destruct_or!; try done; subst key;
      (erewrite Hnew; [by symmetry | by vm_compute]).
  - by apply Hnew.
  - apply Hframe. by apply (bool_decide_unpack _).
  - apply Hframe. by apply (bool_decide_unpack _).
  - intros other Hne. by rewrite lookup_insert_ne.
Qed.

End StoreProperties.

Section Construction.

Implicit Types (self : CourseManager) (course_data record : gmap string value).

(** The loop of [load_sample_data] on complete data: it returns, hands out
    the next identifiers in order and touches nothing else. *)
Lemma add_each_complete (data : list (gmap string value)) clock self :
  Forall complete data →
  ids_below_next self →
  ∃ self',
    add_each data clock self = (Returned tt, self')
    ∧ ids_below_next self'
    ∧ next_course_id self' = next_course_id self + Z.of_nat (length data)
    ∧ dom (courses self')
      = dom (courses self) ∪ list_to_set (seqZ (next_course_id self) (Z.of_nat (length data)))
    ∧ (∀ k record, courses self' !! k = Some record → next_course_id self ≤ k →
                   record !! "id" = Some (VInt k))
    ∧ (∀ k, k < next_course_id self → courses self' !! k = courses self !! k)
    ∧ feedback self' = feedback self
    ∧ next_feedback_id self' = next_feedback_id self
    ∧ openai_client self' = openai_client self.
Proof.
  revert clock self. induction data as [|course_data data IH]; intros clock self Hdata Hinv.
  - exists self. cbn. split_and!; try done.
    + lia.
    + change (seqZ (next_course_id self) (Z.of_nat 0)) with (@nil Z).
      by rewrite list_to_set_nil, (right_id_L ∅ (∪)).
    + intros k record Hk Hle. assert (is_Some (courses self !! k)) as Hs%Hinv by eauto. lia.
  - apply Forall_cons in Hdata as [Hc Hdata]. cbn [add_each].
    destruct (add_course_cases course_data (clock 0%nat) (clock 1%nat) self)
      as [(record & Hrec & E) | (e & E)].
    2: { pose proof (add_course_complete course_data (clock 0%nat) (clock 1%nat) self Hc) as E'.
         by rewrite E in E'. }
    rewrite E.
    pose proof (perform_step (AddCourse course_data (clock 0%nat) (clock 1%nat)) self Hinv)
      as [Hinv' _].
    cbn in Hinv'. rewrite E in Hinv'. cbn in Hinv'.
    edestruct (IH (fun n => clock (S (S n))) _ Hdata Hinv')
      as (self' & Hrun & Hinv'' & Hnext & Hdom & Hids & Hold & Hf & Hn & Ho).
    exists self'. cbn in Hnext, Hdom, Hids, Hold, Hf, Hn, Ho.
    split_and!; try done.
    + rewrite Hnext, length_cons. lia.
    + rewrite Hdom, dom_insert_L, length_cons, (seqZ_cons (next_course_id self)) by lia.
      replace (Z.pred (Z.of_nat (S (length data)))) with (Z.of_nat (length data)) by lia.
      replace (Z.succ (next_course_id self)) with (next_course_id self + 1) by lia.
      rewrite list_to_set_cons, (comm_L (∪) {[next_course_id self]}).
      by rewrite (assoc_L (∪)).
    + intros k record' Hk Hle.
      destruct (decide (k = next_course_id self)) as [->|Hne].
      * rewrite Hold, lookup_insert_eq in Hk by lia. injection Hk as <-.
        by apply new_record_id in Hrec.
      * apply (Hids k record' Hk). lia.
    + intros k Hk. rewrite Hold by lia. apply lookup_insert_ne. lia.
Qed.

Lemma sample_courses_complete : Forall complete sample_courses.
Proof.
  unfold sample_courses, complete, FIELDS.
  repeat (apply Forall_cons; split); try apply Forall_nil;
    (eexists; vm_compute; reflexivity).
Qed.

Lemma setup_openai_returns api_key OpenAI :
  ∃ t c, setup_openai api_key OpenAI = (t, Returned c).
Proof.
  unfold setup_openai. destruct (truthy (or_empty api_key)); [|by eauto].
  destruct (OpenAI (or_empty api_key)) as [c|e]; cbn; eauto.
Qed.

(** C10: whatever the environment, [__init__] returns a store that holds
    exactly the keys 1, 2 and 3, each record carrying its key as ["id"],
    with the counter at 4: the next [add_course] returns 4. *)
Theorem init_preloads_three_courses
    (api_key : option string) (OpenAI : string → outcome client) (clock : nat → string) :
  ∃ self,
    result (init api_key OpenAI clock) = Returned self
    ∧ dom (courses self) = {[1; 2; 3]}
    ∧ size (courses self) = 3%nat
    ∧ (∀ k record, courses self !! k = Some record → record !! "id" = Some (VInt k))
    ∧ next_course_id self = 4
    ∧ (∀ course_data created updated,
         complete course_data →
         (add_course course_data created updated self).1 = Returned 4)
    ∧ (∀ course_data created updated course_id,
         (add_course course_data created updated self).1 = Returned course_id →
         course_id = 4).
Proof.
  unfold init. destruct (setup_openai_returns api_key OpenAI) as (t & c & ->).
  unfold mbind, io_bind, load_sample_data. cbv beta iota zeta.
  set (self0 := {| courses := ∅; feedback := []; next_course_id := 1;
                   next_feedback_id := 1; openai_client := c |}).
  assert (ids_below_next self0) as Hinv0.
  { intros k. cbn. rewrite lookup_empty. by intros []. }
  destruct (add_each_complete sample_courses clock self0 sample_courses_complete Hinv0)
    as (self & Hrun & Hinv & Hnext & Hdom & Hids & _).
  exists self. rewrite Hrun. cbn.
  cbn in Hnext, Hdom, Hids.
  assert (dom (courses self) = {[1; 2; 3]}) as Hdom'.
  { rewrite Hdom, dom_empty_L, (left_id_L ∅ (∪)). by vm_compute. }
  split_and!; try done.
  - rewrite <- size_dom, Hdom'. by vm_compute.
  - intros k record Hk. apply (Hids k record Hk).
    assert (k ∈ dom (courses self)) as Hin by (apply elem_of_dom; eauto).
    rewrite Hdom', !elem_of_union, !elem_of_singleton in Hin. lia.
  - intros course_data created updated Hc.
    rewrite add_course_complete by done. by rewrite Hnext.
  - intros course_data created updated course_id.
    destruct (add_course_cases course_data created updated self)
      as [(record & _ & ->) | (e & ->)]; cbn; [|done].
    rewrite Hnext. by intros [= <-].
Qed.

End Construction.

Section Helpers.

Implicit Types (self : CourseManager).

(** One attempt at the backend: the outcome of the call on the request made,
    then of reading the text out of the response. *)
Ltac attempt c Hcall Htext :=
  unfold create;
  match goal with
  | |- context [c ?req] =>
      destruct (c req) as [?resp|?e] eqn:Hcall; cbn;
      [ match goal with
        | |- context [stripped_content ?resp] =>
            destruct (stripped_content resp) as [?text|?e] eqn:Htext; cbn
        end
      | ]
  end.

Ltac refute_success Hfail Hcall Htext :=
  match type of Hcall with
  | ?c ?req = _ =>
      destruct (Hfail req) as [? Hcontra]; rewrite Hcall in Hcontra;
      cbn in Hcontra; rewrite Htext in Hcontra; discriminate Hcontra
  end.

Lemma suggestions_returns self category :
  ∃ titles, result (generate_course_suggestions self category) = Returned titles.
Proof.
  unfold generate_course_suggestions.
  destruct (openai_client self) as [c|]; [|by eauto].
  attempt c Hcall Htext; eauto.
Qed.

Lemma suggestions_on_failure self c category :
  openai_client self = Some c →
  (∀ r, fails (c r)) →
  result (generate_course_suggestions self category) = Returned ERROR_SUGGESTIONS.
Proof.
  intros Hc Hfail. unfold generate_course_suggestions. rewrite Hc.
  attempt c Hcall Htext; try done. refute_success Hfail Hcall Htext.
Qed.

Lemma summary_returns self :
  ∃ summary, result (summarize_feedback self) = Returned summary.
Proof.
  unfold summarize_feedback.
  destruct (feedback self) as [|f fs]; [by destruct (openai_client self); eauto|].
  destruct (openai_client self) as [c|]; [|by eauto].
  destruct (mapM feedback_line (last10 (f :: fs))) as [lines|e]; cbn; [|by eauto].
  attempt c Hcall Htext; eauto.
Qed.

Lemma summary_on_failure self c :
  openai_client self = Some c →
  (∀ r, fails (c r)) →
  result (summarize_feedback self)
  = Returned (match feedback self with [] => NO_FEEDBACK | _ :: _ => NO_SUMMARY end).
Proof.
  intros Hc Hfail. unfold summarize_feedback. rewrite Hc.
  destruct (feedback self) as [|f fs]; [done|].
  destruct (mapM feedback_line (last10 (f :: fs))) as [lines|e]; cbn; [|done].
  attempt c Hcall Htext; try done. refute_success Hfail Hcall Htext.
Qed.

(** C9, amended: without a backend the suggestion helper returns its list
    of four titles and the summary helper its fixed message, neither
    calling nor printing; when the calls of a configured backend fail, the
    suggestion helper returns another list, the first two of the four
    titles, and the summary helper a fixed message; and on every store and
    every backend both helpers return, they do not raise. *)
Theorem helpers_fall_back self (category : string) :
  (openai_client self = None →
     generate_course_suggestions self category = ([], Returned FALLBACK_SUGGESTIONS)
     ∧ summarize_feedback self = ([], Returned NO_FEEDBACK))
  ∧ (∀ c, openai_client self = Some c → (∀ r, fails (c r)) →
       result (generate_course_suggestions self category) = Returned ERROR_SUGGESTIONS
       ∧ result (summarize_feedback self)
         = Returned (match feedback self with [] => NO_FEEDBACK | _ :: _ => NO_SUMMARY end))
  ∧ ERROR_SUGGESTIONS = take 2 FALLBACK_SUGGESTIONS
  ∧ (∃ titles, result (generate_course_suggestions self category) = Returned titles)
  ∧ (∃ summary, result (summarize_feedback self) = Returned summary).
Proof.
  split_and!; [..|reflexivity| |].
  - intros H. unfold generate_course_suggestions, summarize_feedback. rewrite H.
    by destruct (feedback self).
  - intros c Hc Hfail. split;
      [by apply (suggestions_on_failure self c) | by apply (summary_on_failure self c)].
  - apply suggestions_returns.
  - apply summary_returns.
Qed.

End Helpers.

(** C9, as stated, fails: the list returned without a backend is not the
    list returned when the call fails. *)
Lemma suggestions_lists_differ :
  let store c := {| courses := ∅; feedback := []; next_course_id := 1;
                    next_feedback_id := 1; openai_client := c |} in
  let failing : client := fun _ => Raised (BackendError "timeout") in
  result (generate_course_suggestions (store None) "")
  ≠ result (generate_course_suggestions (store (Some failing)) "").
Proof. vm_compute. discriminate. Qed.

(** ** The store at concrete inputs *)

Lemma course_ids_sequential_witness :
  courses empty_store = ∅
  ∧ next_course_id empty_store = 1
  ∧ let ids := assigned_ids add_delete_add empty_store in
    ids = seqZ 1 (Z.of_nat (length ids))
    ∧ (Forall well_formed add_delete_add → length ids = adds add_delete_add)
    ∧ (∀ j course_id,
         (session add_delete_add empty_store).1 !! j = Some (Id (Returned course_id)) →
         ∀ i store, (i ≤ j)%nat → (session add_delete_add empty_store).2 !! i = Some store →
                    courses store !! course_id = None).
Proof.
  split; [reflexivity|]. split; [reflexivity|].
  exact (course_ids_sequential add_delete_add empty_store eq_refl eq_refl).
Defined.

Example add_delete_add_ids :
  assigned_ids add_delete_add empty_store = [1; 2; 3]
  ∧ (session add_delete_add empty_store).1
    = [ Id (Returned 1); Id (Returned 2); Flag (Returned true);
        Id (Raised (KeyError "title")); Flag (Returned true); Id (Returned 3) ].
Proof. split; vm_compute; reflexivity. Qed.

Lemma absent_id_changes_nothing_witness :
  courses one_course_store !! 7 = None
  ∧ update_course 7 (course_fields "New") "2024-06-01 10:00:00" one_course_store
    = (Returned false, one_course_store)
  ∧ delete_course 7 one_course_store = (Returned false, one_course_store).
Proof.
  assert (courses one_course_store !! 7 = None) as H by (vm_compute; reflexivity).
  split; [exact H|].
  exact (absent_id_changes_nothing one_course_store 7 (course_fields "New")
           "2024-06-01 10:00:00" H).
Defined.

Lemma course_fields_complete name : complete (course_fields name).
Proof.
  unfold complete, FIELDS.
  repeat (apply Forall_cons; split); try apply Forall_nil;
    (eexists; vm_compute; reflexivity).
Qed.

Lemma update_course_frame_witness :
  courses one_course_store !! 1 = Some old_record
  ∧ complete (course_fields "New")
  ∧ ∃ self' record',
      update_course 1 (course_fields "New") "2024-06-01 10:00:00" one_course_store
      = (Returned true, self')
      ∧ courses self' !! 1 = Some record'
      ∧ (∀ key, key ∈ FIELDS → record' !! key = course_fields "New" !! key)
      ∧ record' !! "updated_at" = Some (VStr "2024-06-01 10:00:00")
      ∧ record' !! "id" = old_record !! "id"
      ∧ record' !! "created_at" = old_record !! "created_at"
      ∧ (∀ key, key ∉ "updated_at" :: FIELDS → record' !! key = old_record !! key)
      ∧ (∀ other, other ≠ 1 →
                  courses self' !! other = courses one_course_store !! other)
      ∧ feedback self' = feedback one_course_store
      ∧ next_course_id self' = next_course_id one_course_store
      ∧ next_feedback_id self' = next_feedback_id one_course_store
      ∧ openai_client self' = openai_client one_course_store.
Proof.
  assert (courses one_course_store !! 1 = Some old_record) as H
    by (vm_compute; reflexivity).
  split; [exact H|]. split; [exact (course_fields_complete "New")|].
  exact (update_course_frame one_course_store 1 old_record (course_fields "New")
           "2024-06-01 10:00:00" H (course_fields_complete "New")).
Defined.

Example update_without_fields_raises :
  update_course 1 ∅ "2024-06-01 10:00:00" one_course_store
  = (Raised (KeyError "title"), one_course_store).
Proof. vm_compute. reflexivity. Qed.

Example suggestions_parsed :
  let store := {| courses := ∅; feedback := []; next_course_id := 1;
                  next_feedback_id := 1;
                  openai_client :=
                    Some (answering (unlines [" - Lead Boldly"; ""; "- Negotiate - Win "])) |} in
  result (generate_course_suggestions store "") = Returned ["Lead Boldly"; "Negotiate - Win"].
Proof. vm_compute. reflexivity. Qed.

Import Feedback MoreExamples.

(** * Further properties *)

(** ** The chatbot *)
Section ChatbotMore.

Variable lower : string → string.

Lemma if_truthy_nonempty x s : if_truthy x = Some s → s ≠ "".
Proof.
  destruct x as [t|]; [|done]. simpl. destruct t; [done|]. by intros [= <-].
Qed.

(** The three ways [get_ai_response] ends. *)
Lemma get_ai_response_shape self user_input context :
  get_ai_response self user_input context = ([], Returned None)
  ∨ (∃ r text, get_ai_response self user_input context = ([Call r], Returned (Some text)))
  ∨ (∃ r line, get_ai_response self user_input context
               = ([Call r; Print line], Returned None)).
Proof.
  destruct (Chatbot.openai_client self) as [c|] eqn:E.
  - destruct (get_ai_response_configured self c user_input context E) as [r ->].
    destruct (c r ≫= stripped_content); eauto 10.
  - left. by apply get_ai_response_absent.
Qed.

Lemma io_bind_returned {A B : Type} (t : list event) (a : A) (f : A → io B) :
  (t, Returned a) ≫= f = (t ++ (f a).1, (f a).2).
Proof. unfold mbind, io_bind. by destruct (f a). Qed.

(** The last step of [get_response]: the first of the two candidates that
    passes its test, else the menu. *)
Lemma final_selection (ai_response faq_response : option string) :
  ∃ reply,
    match if_truthy ai_response with
    | Some reply => mret reply
    | None =>
        match if_truthy faq_response with
        | Some reply => mret reply
        | None => mret MENU
        end
    end = (([], Returned reply) : io string)
    ∧ reply ≠ ""
    ∧ reply = default (default MENU (if_truthy faq_response)) (if_truthy ai_response).
Proof.
  destruct (if_truthy ai_response) as [a|] eqn:Ea.
  { exists a. apply if_truthy_nonempty in Ea. by repeat split. }
  destruct (if_truthy faq_response) as [f|] eqn:Ef.
  { exists f. apply if_truthy_nonempty in Ef. by repeat split. }
  exists MENU. split_and!; [reflexivity | by vm_compute | reflexivity].
Qed.

(** How [get_response] ends: on blank input with the prompt and no event;
    otherwise with the events of its one use of [get_ai_response] and a
    reply that is not empty. *)
Lemma get_response_shape (self : IronLadyChatbot) (user_input : string) :
  (whitespace_only user_input
   ∧ get_response lower self user_input = ([], Returned PROMPT_FOR_INPUT))
  ∨ (¬ whitespace_only user_input
     ∧ ∃ t ai_response reply,
         get_ai_response self user_input
           (or_empty (match find_intent lower self user_input with
                      | Some i => if truthy i then get_faq_response self i else None
                      | None => None
                      end)) = (t, Returned ai_response)
         ∧ get_response lower self user_input = (t, Returned reply)
         ∧ reply ≠ ""
         ∧ (length (omap (fun ev => match ev with Call r => Some r | Print _ => None end) t)
            ≤ 1)%nat).
Proof.
  unfold get_response.
  destruct (truthy (strip user_input)) eqn:Hs; cbn [negb].
  2: { left. split; [|done]. apply strip_empty. by destruct (strip user_input). }
  right. split. { apply not_blank. exact Hs. }
  cbv zeta.
  match goal with |- context [get_ai_response self user_input ?ctx] =>
    destruct (get_ai_response_shape self user_input ctx)
      as [-> | [(r & text & ->) | (r & line & ->)]]
  end;
    rewrite io_bind_returned;
    match goal with
    | |- context [match if_truthy ?ai with
                  | Some _ => _
                  | None => match if_truthy ?faq with _ => _ end
                  end] =>
        destruct (final_selection ai faq) as (reply & -> & Hne & _)
    end;
    do 3 eexists; (split; [reflexivity|]); cbn [fst snd]; rewrite app_nil_r;
    (split; [reflexivity|]); (split; [done|]); cbn; lia.
Qed.

(** X1: whatever the object holds and whatever the backend does,
    [get_response] returns a reply, the reply is not empty, and at most one
    call went to the backend. *)
Theorem get_response_always_replies (self : IronLadyChatbot) (user_input : string) :
  ∃ reply,
    result (get_response lower self user_input) = Returned reply
    ∧ reply ≠ ""
    ∧ (length (calls (get_response lower self user_input)) ≤ 1)%nat.
Proof.
  destruct (get_response_shape self user_input)
    as [[_ ->] | (_ & t & ai_response & reply & _ & -> & Hne & Hcalls)].
  - exists PROMPT_FOR_INPUT. split_and!; [reflexivity | by vm_compute | cbn; lia].
  - exists reply. by split_and!.
Qed.

(** The request [get_ai_response] sends when a client is configured. *)
Lemma get_ai_response_calls self (c : client) (user_input context : string) :
  Chatbot.openai_client self = Some c →
  calls (get_ai_response self user_input context)
  = [ {| model := "gpt-3.5-turbo";
         messages :=
           [ {| role := "system";
                content :=
                  if truthy context
                  then SYSTEM_PROMPT +:+ newline +:+ newline
                         +:+ "Relevant FAQ Context: " +:+ context
                  else SYSTEM_PROMPT |};
             {| role := "user"; content := user_input |} ];
         max_tokens := 300;
         temperature := QArith_base.Qmake 7 10 |} ].
Proof.
  intros H. unfold get_ai_response. rewrite H. unfold create. cbv zeta.
  match goal with |- context [c ?req] => destruct (c req) as [resp|e] end;
    [destruct (stripped_content resp) as [text|e] eqn:E|];
    unfold try_except, mbind, io_bind, lift; rewrite ?E; reflexivity.
Qed.

(** On input that is not blank, the calls of [get_response] are those of
    its one use of [get_ai_response]. *)
Lemma get_response_calls self (user_input : string) :
  ¬ whitespace_only user_input →
  calls (get_response lower self user_input)
  = calls (get_ai_response self user_input
             (or_empty (match find_intent lower self user_input with
                        | Some i => if truthy i then get_faq_response self i else None
                        | None => None
                        end))).
Proof.
  intros Hs.
  destruct (get_response_shape self user_input)
    as [[Hb _] | (_ & t & ai_response & reply & -> & -> & _)]; done.
Qed.

(** X2: on input that is not blank, a chatbot with a client sends exactly
    one request: the model, the length limit and the temperature are fixed,
    the user message is the input as it was typed, and the system message is
    the fixed prompt, followed by the canned answer of the resolved topic,
    the [answer] field of the topic's entry in [FAQ_DATA], when there is
    one. *)
Theorem get_response_request (c : client) (user_input : string) :
  ¬ whitespace_only user_input →
  let self := with_client (Some c) in
  ∃ system,
    calls (get_response lower self user_input)
    = [ {| model := "gpt-3.5-turbo";
           messages := [ {| role := "system"; content := system |};
                         {| role := "user"; content := user_input |} ];
           max_tokens := 300;
           temperature := QArith_base.Qmake 7 10 |} ]
    ∧ match find_intent lower self user_input with
      | Some intent =>
          ∃ entry, FAQ_DATA !! intent = Some entry
                   ∧ system = SYSTEM_PROMPT +:+ newline +:+ newline
                                +:+ "Relevant FAQ Context: " +:+ answer entry
      | None => system = SYSTEM_PROMPT
      end.
Proof.
  intros Hs self. subst self.
  rewrite (get_response_calls _ _ Hs), (get_ai_response_calls _ c) by done.
  destruct (find_intent lower (with_client (Some c)) user_input) as [intent|] eqn:E.
  - apply find_intent_listed in E as (kws & Hin & _).
    destruct (topic_entry (Some c) intent kws Hin) as (entry & He & Ha & Hi & Ht).
    rewrite Hi, Ha. unfold or_empty. rewrite !Ht.
    eexists. split; [reflexivity|]. by exists entry.
  - eexists. split; reflexivity.
Qed.

(** A topic that matches is found, unless one listed before it is. *)
Lemma first_match_at_or_before (before after : list (string * list string))
    (intent : string) (kws : list string) (text : string) :
  matches kws text →
  ∃ intent', first_match (before ++ (intent, kws) :: after) text = Some intent'
             ∧ intent' ∈ before.*1 ++ [intent].
Proof.
  intros Hm. induction before as [|[i k] before IH]; simpl.
  - apply any_keyword_in_spec in Hm. rewrite Hm. exists intent. split; [done|]. by left.
  - destruct (any_keyword_in k text).
    + exists i. split; [done|]. by left.
    + destruct IH as (intent' & -> & Hin). exists intent'. split; [done|]. by right.
Qed.

(** X3: text put around an input cannot lose its intent, it can only hand it
    to a topic listed earlier. This holds for a lower-casing under which a
    keyword found in a text is still found when the text is extended. *)
Theorem find_intent_more_text (c : option client) (pre user_input post intent : string) :
  (∀ topic kws keyword a s b,
     (topic, kws) ∈ KEYWORDS → keyword ∈ kws →
     occurs_in keyword (lower s) → occurs_in keyword (lower (a +:+ s +:+ b))) →
  find_intent lower (with_client c) user_input = Some intent →
  ∃ before kws after intent',
    KEYWORDS = before ++ (intent, kws) :: after
    ∧ find_intent lower (with_client c) (pre +:+ user_input +:+ post) = Some intent'
    ∧ intent' ∈ before.*1 ++ [intent].
Proof.
  intros Hkeep E. unfold find_intent in *. cbn [keywords with_client] in *.
  pose proof (first_match_spec KEYWORDS (lower user_input)) as S. rewrite E in S.
  destruct S as (before & kws & after & Hsplit & (keyword & Hk & Hocc) & _).
  assert ((intent, kws) ∈ KEYWORDS) as Hin by (rewrite Hsplit, elem_of_app; right; by left).
  assert (matches kws (lower (pre +:+ user_input +:+ post))) as Hm.
  { exists keyword. split; [done|]. by apply (Hkeep intent kws). }
  destruct (first_match_at_or_before before after intent kws _ Hm) as (intent' & Hf & Hi).
  exists before, kws, after, intent'. split; [done|]. split; [|done].
  by rewrite Hsplit at 1.
Qed.

End ChatbotMore.

(** What [__init__] leaves: one line printed and the fixed tables. *)
Lemma chatbot_init_shape (api_key : option string) (OpenAI : string → outcome client) :
  ∃ c line, Chatbot.init api_key OpenAI = ([Print line], Returned (with_client c)).
Proof.
  unfold Chatbot.init, Chatbot.setup_openai.
  destruct (truthy (or_empty api_key)); [|by do 2 eexists].
  destruct (OpenAI (or_empty api_key)); by do 2 eexists.
Qed.

(** X4: building a chatbot never raises, prints one line and calls nothing;
    the tables are the fixed ones, and a client is kept exactly when a key
    that is not empty was found and the library accepted it. *)
Theorem chatbot_init_outcome (api_key : option string) (OpenAI : string → outcome client) :
  ∃ c line,
    Chatbot.init api_key OpenAI = ([Print line], Returned (with_client c))
    ∧ ∀ cl, c = Some cl ↔ ∃ key, api_key = Some key ∧ key ≠ "" ∧ OpenAI key = Returned cl.
Proof.
  unfold Chatbot.init, Chatbot.setup_openai.
  destruct api_key as [[|a key]|]; cbn.
  - do 2 eexists. split; [reflexivity|]. intros cl. split; [done|].
    by intros (key & [= <-] & Hne & _).
  - destruct (OpenAI (String a key)) as [cl|e] eqn:E; cbn;
      (do 2 eexists; split; [reflexivity|]); intros cl'; split.
    + intros [= <-]. by exists (String a key).
    + intros (key' & [= <-] & _ & Hcl). rewrite E in Hcl. by injection Hcl as <-.
    + done.
    + intros (key' & [= <-] & _ & Hcl). by rewrite E in Hcl.
  - do 2 eexists. split; [reflexivity|]. intros cl. split; [done|].
    by intros (key & [=] & _).
Qed.

Lemma ascii_lower_app s t : ascii_lower (s +:+ t) = ascii_lower s +:+ ascii_lower t.
Proof. induction s as [|a s IH]; [done|]. rewrite app_cons. simpl. by rewrite IH. Qed.

Lemma ascii_lower_keeps keyword a s b :
  occurs_in keyword (ascii_lower s) → occurs_in keyword (ascii_lower (a +:+ s +:+ b)).
Proof.
  intros (p & q & E). rewrite !ascii_lower_app, E.
  exists (ascii_lower a +:+ p), (q +:+ ascii_lower b).
  by rewrite !app_assoc_str.
Qed.

Lemma find_intent_more_text_witness :
  find_intent ascii_lower (with_client None) "how LONG" = Some "duration"
  ∧ ∃ before kws after intent',
      KEYWORDS = before ++ ("duration", kws) :: after
      ∧ find_intent ascii_lower (with_client None)
          ("Tell me, " +:+ "how LONG" +:+ " is the program?") = Some intent'
      ∧ intent' ∈ before.*1 ++ ["duration"].
Proof.
  assert (find_intent ascii_lower (with_client None) "how LONG" = Some "duration") as E
    by (vm_compute; reflexivity).
  split; [exact E|].
  apply (find_intent_more_text ascii_lower None "Tell me, " "how LONG" " is the program?"
           "duration"); [|exact E].
  intros topic kws keyword a s b _ _. apply ascii_lower_keeps.
Defined.

Lemma get_response_request_witness :
  ¬ whitespace_only "  How LONG is it?"
  ∧ ∃ system,
      calls (get_response ascii_lower (with_client (Some failing)) "  How LONG is it?")
      = [ {| model := "gpt-3.5-turbo";
             messages := [ {| role := "system"; content := system |};
                           {| role := "user"; content := "  How LONG is it?" |} ];
             max_tokens := 300;
             temperature := QArith_base.Qmake 7 10 |} ]
      ∧ match find_intent ascii_lower (with_client (Some failing)) "  How LONG is it?" with
        | Some intent =>
            ∃ entry, FAQ_DATA !! intent = Some entry
                     ∧ system = SYSTEM_PROMPT +:+ newline +:+ newline
                                  +:+ "Relevant FAQ Context: " +:+ answer entry
        | None => system = SYSTEM_PROMPT
        end.
Proof.
  assert (¬ whitespace_only "  How LONG is it?") as Hs
    by (apply not_blank; vm_compute; reflexivity).
  split; [exact Hs|].
  exact (get_response_request ascii_lower failing "  How LONG is it?" Hs).
Defined.

(** ** Feedback *)
Section FeedbackProperties.

Variable int_of_str : string → outcome Z.

Implicit Types (self : CourseManager) (feedback_data entry : gmap string value).

Lemma new_feedback_returned feedback_id feedback_data now entry :
  new_feedback int_of_str feedback_id feedback_data now = Returned entry →
  ∃ name email course r n text,
    feedback_data !! "name" = Some name ∧ feedback_data !! "email" = Some email
    ∧ feedback_data !! "course" = Some course ∧ feedback_data !! "rating" = Some r
    ∧ int_ int_of_str r = Returned n ∧ feedback_data !! "feedback" = Some text
    ∧ entry = list_to_map
                [ ("id", VInt feedback_id); ("name", name); ("email", email);
                  ("course", course); ("rating", VInt n); ("feedback", text);
                  ("created_at", VStr now) ].
Proof.
  unfold new_feedback, getitem. intros H.
  destruct (feedback_data !! "name") as [name|]; [|done].
  destruct (feedback_data !! "email") as [email|]; [|done].
  destruct (feedback_data !! "course") as [course|]; [|done].
  destruct (feedback_data !! "rating") as [r|]; [|done]. cbn in H.
  destruct (int_ int_of_str r) as [n|] eqn:En; [|done]. cbn in H.
  destruct (feedback_data !! "feedback") as [text|]; [|done]. cbn in H.
  injection H as <-. by exists name, email, course, r, n, text.
Qed.

Lemma new_feedback_reads feedback_id feedback_data now n :
  reads_as int_of_str feedback_data n →
  ∃ entry, new_feedback int_of_str feedback_id feedback_data now = Returned entry.
Proof.
  intros ([name Hn] & [email He] & [course Hc] & [text Ht] & r & Hr & Hi).
  unfold new_feedback, getitem. rewrite Hn, He, Hc, Hr. cbn. rewrite Hi. cbn.
  rewrite Ht. cbn. eauto.
Qed.

(** X5: when the five fields are there and [int] reads the rating,
    [add_feedback] returns the feedback counter and moves it on by one; the
    entry is appended at the end of the list, under that identifier, with
    the rating as an integer, the time stamp read and the other fields as
    supplied; courses, course counter and client stay as they were. *)
Theorem add_feedback_appends feedback_data (now : string) (n : Z) self :
  reads_as int_of_str feedback_data n →
  ∃ entry,
    add_feedback int_of_str feedback_data now self
    = (Returned (next_feedback_id self),
       {| courses := courses self;
          feedback := feedback self ++ [entry];
          next_course_id := next_course_id self;
          next_feedback_id := next_feedback_id self + 1;
          openai_client := openai_client self |})
    ∧ entry !! "id" = Some (VInt (next_feedback_id self))
    ∧ entry !! "rating" = Some (VInt n)
    ∧ entry !! "created_at" = Some (VStr now)
    ∧ (∀ key, key ∈ ["name"; "email"; "course"; "feedback"] →
              entry !! key = feedback_data !! key).
Proof.
  intros Hr. pose proof Hr as (_ & _ & _ & _ & r & Hrating & Hint).
  destruct (new_feedback_reads (next_feedback_id self) feedback_data now n Hr)
    as [entry Hentry].
  exists entry. unfold add_feedback. rewrite Hentry. split; [done|].
  apply new_feedback_returned in Hentry
    as (name & email & course & r' & n' & text & Hn & He & Hc & Hr' & Hi & Ht & ->).
  assert (n' = n) as -> by congruence.
  split_and!; try by vm_compute.
  intros key Hkey. rewrite !elem_of_cons, elem_of_nil in Hkey.
  destruct_or!; try done; subst key; by vm_compute.
Qed.

(** X6: when a field is missing or [int] cannot read the rating,
    [add_feedback] raises, and the store, its feedback counter included, is
    as it was. *)
Theorem add_feedback_rejects feedback_data (now : string) self :
  (∀ n, ¬ reads_as int_of_str feedback_data n) →
  ∃ e, add_feedback int_of_str feedback_data now self = (Raised e, self).
Proof.
  intros Hno. unfold add_feedback.
  destruct (new_feedback int_of_str _ _ _) as [entry|e] eqn:E; [|by eauto].
  apply new_feedback_returned in E
    as (name & email & course & r & n & text & Hn & He & Hc & Hr & Hi & Ht & _).
  destruct (Hno n). unfold reads_as. rewrite Hn, He, Hc, Ht. eauto 10.
Qed.

(** The course methods leave feedback, its counter and the client alone. *)
Lemma perform_frame (c : call) self :
  feedback (perform c self).2 = feedback self
  ∧ next_feedback_id (perform c self).2 = next_feedback_id self
  ∧ openai_client (perform c self).2 = openai_client self.
Proof.
  destruct c as [course_data created updated|course_id course_data now|course_id]; simpl.
  - by destruct (add_course_cases course_data created updated self)
      as [(record & _ & ->) | (e & ->)].
  - unfold update_course. destruct (courses self !! course_id); [|done].
    by destruct (changes course_data now).
  - unfold delete_course. by destruct (courses self !! course_id).
Qed.

Lemma add_feedback_cases feedback_data now self :
  (∃ entry,
      entry !! "id" = Some (VInt (next_feedback_id self))
      ∧ add_feedback int_of_str feedback_data now self
        = (Returned (next_feedback_id self),
           {| courses := courses self;
              feedback := feedback self ++ [entry];
              next_course_id := next_course_id self;
              next_feedback_id := next_feedback_id self + 1;
              openai_client := openai_client self |}))
  ∨ (∃ e, add_feedback int_of_str feedback_data now self = (Raised e, self)).
Proof.
  unfold add_feedback.
  destruct (new_feedback int_of_str _ _ _) as [entry|e] eqn:E; [left|right; eauto].
  exists entry. split; [|done].
  apply new_feedback_returned in E as (? & ? & ? & ? & ? & ? & _ & _ & _ & _ & _ & _ & ->).
  by vm_compute.
Qed.

Lemma act_feedback_numbered (a : action) self :
  feedback_numbered self → feedback_numbered (act int_of_str a self).
Proof.
  unfold feedback_numbered. intros [Hids Hnext]. destruct a as [c|feedback_data now]; simpl.
  - destruct (perform_frame c self) as (-> & -> & _). done.
  - destruct (add_feedback_cases feedback_data now self) as [(entry & Hid & ->) | (e & ->)];
      simpl; [|done].
    rewrite length_app. simpl. rewrite Nat.add_1_r.
    split; [|lia].
    rewrite seqZ_S, !fmap_app, Hids. simpl. rewrite Hid, Hnext. done.
Qed.

Lemma run_feedback_numbered (actions : list action) self :
  feedback_numbered self → feedback_numbered (run int_of_str actions self).
Proof.
  unfold run. revert self. induction actions as [|a actions IH]; intros self H; [done|].
  simpl. apply IH. by apply act_feedback_numbered.
Qed.

Lemma act_feedback_prefix (a : action) self :
  feedback self `prefix_of` feedback (act int_of_str a self).
Proof.
  destruct a as [c|feedback_data now]; simpl.
  - by destruct (perform_frame c self) as (-> & _).
  - destruct (add_feedback_cases feedback_data now self) as [(entry & _ & ->) | (e & ->)];
      simpl; [by apply prefix_app_r | done].
Qed.

(** X9: feedback is only ever appended: whatever calls are made, the
    entries a store held are still the first entries afterwards, unchanged
    and in the same order. *)
Theorem feedback_append_only (actions : list action) self :
  feedback self `prefix_of` feedback (run int_of_str actions self).
Proof.
  unfold run. revert self. induction actions as [|a actions IH]; intros self; [done|].
  simpl. etrans; [apply (act_feedback_prefix a)|apply IH].
Qed.

(** What each course method keeps of the records. *)
Lemma new_record_keys course_id course_data created updated record :
  new_record course_id course_data created updated = Returned record →
  Forall (fun key => is_Some (record !! key)) COURSE_KEYS.
Proof.
  unfold new_record. intros H.
  repeat apply bind_returned in H as (? & _ & H).
  injection H as <-. unfold COURSE_KEYS.
  repeat (apply Forall_cons; split); try apply Forall_nil;
    (eexists; vm_compute; reflexivity).
Qed.

Lemma dict_update_keeps record course_data now new :
  changes course_data now = Returned new →
  dict_update record new !! "id" = record !! "id"
  ∧ ∀ key, is_Some (record !! key) → is_Some (dict_update record new !! key).
Proof.
  unfold changes, dict_update. intros H.
  repeat apply bind_returned in H as (? & _ & H).
  injection H as <-. split.
  - apply lookup_union_r. by vm_compute.
  - intros key [v Hv]. rewrite lookup_union, Hv.
    match goal with |- is_Some (?o ∪ _) => destruct o end; by eexists.
Qed.

Lemma perform_records_keyed (c : call) self :
  records_keyed self ∧ ids_below_next self →
  records_keyed (perform c self).2 ∧ ids_below_next (perform c self).2.
Proof.
  intros [Hkeyed Hinv]. split; [|by apply perform_step].
  unfold records_keyed in *.
  destruct c as [course_data created updated|course_id course_data now|course_id]; simpl.
  - destruct (add_course_cases course_data created updated self)
      as [(record & Hrec & ->) | (e & ->)]; simpl; [|done].
    intros k record'. rewrite lookup_insert. case_decide as E.
    + subst k. intros [= <-]. split; [by eapply new_record_id | by eapply new_record_keys].
    + apply Hkeyed.
  - unfold update_course. destruct (courses self !! course_id) as [record|] eqn:E; [|done].
    destruct (changes course_data now) as [new|e] eqn:En; simpl; [|done].
    intros k record'. rewrite lookup_insert. case_decide as E'; [|apply Hkeyed].
    subst k. intros [= <-]. destruct (Hkeyed _ _ E) as [Hid Hkeys].
    destruct (dict_update_keeps record course_data now new En) as [Hid' Hkeep].
    split; [by rewrite Hid'|]. eapply Forall_impl; [exact Hkeys|]. apply Hkeep.
  - unfold delete_course. destruct (courses self !! course_id) as [record|] eqn:E; [|done].
    simpl. intros k record'. rewrite lookup_delete. case_decide; [done|apply Hkeyed].
Qed.

Lemma add_each_records_keyed (data : list (gmap string value)) clock self :
  records_keyed self ∧ ids_below_next self →
  records_keyed (add_each data clock self).2 ∧ ids_below_next (add_each data clock self).2.
Proof.
  revert clock self. induction data as [|course_data data IH]; intros clock self H; [done|].
  cbn [add_each].
  pose proof (perform_records_keyed (AddCourse course_data (clock 0%nat) (clock 1%nat)) self H)
    as H'. cbn in H'.
  destruct (add_course course_data (clock 0%nat) (clock 1%nat) self) as [[course_id|e] self'];
    [by apply IH | done].
Qed.

Lemma add_each_frame (data : list (gmap string value)) clock self :
  feedback (add_each data clock self).2 = feedback self
  ∧ next_feedback_id (add_each data clock self).2 = next_feedback_id self.
Proof.
  revert clock self. induction data as [|course_data data IH]; intros clock self; [done|].
  cbn [add_each].
  destruct (perform_frame (AddCourse course_data (clock 0%nat) (clock 1%nat)) self)
    as (Hf & Hn & _). cbn in Hf, Hn.
  destruct (add_course course_data (clock 0%nat) (clock 1%nat) self) as [[course_id|e] self'];
    [|done].
  cbn in Hf, Hn. rewrite <- Hf, <- Hn. apply IH.
Qed.

Lemma act_records_keyed (a : action) self :
  records_keyed self ∧ ids_below_next self →
  records_keyed (act int_of_str a self) ∧ ids_below_next (act int_of_str a self).
Proof.
  destruct a as [c|feedback_data now]; simpl; [apply perform_records_keyed|].
  by destruct (add_feedback_cases feedback_data now self) as [(entry & _ & ->) | (e & ->)].
Qed.

Lemma run_records_keyed (actions : list action) self :
  records_keyed self ∧ ids_below_next self →
  records_keyed (run int_of_str actions self)
  ∧ ids_below_next (run int_of_str actions self).
Proof.
  unfold run. revert self. induction actions as [|a actions IH]; intros self H; [done|].
  simpl. apply IH. by apply act_records_keyed.
Qed.

Lemma init_store api_key OpenAI clock self0 :
  result (init api_key OpenAI clock) = Returned self0 →
  ∃ c, self0 = (load_sample_data clock
                  {| courses := ∅; feedback := []; next_course_id := 1;
                     next_feedback_id := 1; openai_client := c |}).2.
Proof.
  unfold init. destruct (setup_openai_returns api_key OpenAI) as (t & c & ->).
  unfold mbind, io_bind. cbv beta iota zeta. exists c.
  destruct (load_sample_data clock _) as [[[]|e] self]; cbn in *; congruence.
Qed.

(** X7: in every store a program can hold, the feedback entries carry the
    identifiers 1, 2, ..., n in the order of the list and the feedback
    counter is n + 1: the course methods do not touch it, and a rejected
    [add_feedback] uses no identifier up. *)
Theorem reachable_feedback_numbered self :
  reachable int_of_str self → feedback_numbered self.
Proof.
  intros (api_key & OpenAI & clock & actions & self0 & Hinit & ->).
  apply run_feedback_numbered.
  apply init_store in Hinit as [c ->]. unfold load_sample_data, feedback_numbered.
  by destruct (add_each_frame sample_courses clock
                 {| courses := ∅; feedback := []; next_course_id := 1;
                    next_feedback_id := 1; openai_client := c |}) as [-> ->].
Qed.

(** X8: in every store a program can hold, each course record sits under
    its own ["id"], holds the nine keys, and has an identifier below the
    counter. *)
Theorem reachable_records_keyed self :
  reachable int_of_str self → records_keyed self ∧ ids_below_next self.
Proof.
  intros (api_key & OpenAI & clock & actions & self0 & Hinit & ->).
  apply run_records_keyed.
  apply init_store in Hinit as [c ->]. apply add_each_records_keyed.
  split; intros k; cbn; rewrite lookup_empty; [done | by intros []].
Qed.

End FeedbackProperties.

(** ** Course methods, one after another *)
Section Composition.

Implicit Types (self : CourseManager) (course_data record : gmap string value).

Lemma changes_complete course_data now :
  complete course_data →
  ∃ t d u f p c,
    course_data !! "title" = Some t ∧ course_data !! "description" = Some d
    ∧ course_data !! "duration" = Some u ∧ course_data !! "format" = Some f
    ∧ course_data !! "price" = Some p ∧ course_data !! "category" = Some c
    ∧ changes course_data now
      = Returned (list_to_map
                    [ ("title", t); ("description", d); ("duration", u); ("format", f);
                      ("price", p); ("category", c); ("updated_at", VStr now) ]).
Proof.
  intros (t & d & u & f & p & c & Ht & Hd & Hu & Hf & Hp & Hc)%complete_fields.
  exists t, d, u, f, p, c. unfold changes, getitem.
  by rewrite Ht, Hd, Hu, Hf, Hp, Hc.
Qed.

(** The dict passed to [dict.update] has the same seven keys whatever the
    values. *)
Lemma changes_keys course_data now new key :
  changes course_data now = Returned new →
  is_Some (new !! key) ↔ key ∈ "updated_at" :: FIELDS.
Proof.
  unfold changes. intros H.
  repeat apply bind_returned in H as (? & _ & H).
  injection H as <-. unfold FIELDS.
  rewrite <- elem_of_dom. cbn [list_to_map foldr uncurry fst snd].
  rewrite !dom_insert_L, dom_empty_L, !elem_of_union, !elem_of_singleton, !elem_of_cons,
    elem_of_nil, elem_of_empty.
  tauto.
Qed.

(** X10: two updates of one course in a row leave the store as the second
    alone would: the later values win, ["id"] and ["created_at"] are still
    those of the record before both. *)
Theorem update_course_twice self (course_id : Z) record
    (first second : gmap string value) (t1 t2 : string) :
  courses self !! course_id = Some record →
  complete first → complete second →
  update_course course_id second t2 (update_course course_id first t1 self).2
  = (Returned true, (update_course course_id second t2 self).2).
Proof.
  intros Hrec H1 H2.
  destruct (changes_complete first t1 H1) as (? & ? & ? & ? & ? & ? & _ & _ & _ & _ & _ & _ & E1).
  destruct (changes_complete second t2 H2) as (? & ? & ? & ? & ? & ? & _ & _ & _ & _ & _ & _ & E2).
  unfold update_course. rewrite Hrec, E1. cbn [snd courses set_courses].
  rewrite lookup_insert_eq, E2. cbn [snd]. f_equal.
  unfold set_courses. cbn [courses feedback next_course_id next_feedback_id openai_client].
  f_equal. rewrite insert_insert_eq. f_equal.
  unfold dict_update. apply map_eq. intros key. rewrite !lookup_union.
  pose proof (changes_keys first t1 _ key E1) as K1.
  pose proof (changes_keys second t2 _ key E2) as K2.
  match goal with |- ?n2 ∪ (?n1 ∪ _) = _ =>
    destruct n2 as [v2|]; destruct n1 as [v1|]
  end;
    first [ done
          | by destruct (record !! key)
          | destruct K2 as [_ K2]; destruct K1 as [K1 _];
            by destruct (K2 (K1 (mk_is_Some _ _ eq_refl))) ].
Qed.

(** X11: once [delete_course] has run, the identifier is gone whether or
    not it was there, a second [delete_course] returns [False] and changes
    nothing, and every other lookup answers as before. *)
Theorem delete_course_twice self (course_id : Z) :
  let self' := (delete_course course_id self).2 in
  get_course self' course_id = None
  ∧ delete_course course_id self' = (Returned false, self')
  ∧ ∀ other, other ≠ course_id → get_course self' other = get_course self other.
Proof.
  intros self'.
  assert (get_course self' course_id = None) as Hgone.
  { subst self'. unfold get_course, delete_course.
    destruct (courses self !! course_id) eqn:E; simpl; [apply lookup_delete_eq | done]. }
  split; [done|]. split.
  - unfold delete_course. unfold get_course in Hgone. by rewrite Hgone.
  - intros other Hne. subst self'. unfold get_course, delete_course.
    destruct (courses self !! course_id); simpl; [by apply lookup_delete_ne | done].
Qed.

(** X12: after [add_course] with the six fields supplied, [get_course] on
    the identifier returned gives a record with exactly the nine keys: the
    identifier, the six values supplied, and the two readings of the clock;
    every other lookup answers as before. *)
Theorem add_course_then_get self course_data (created updated : string) :
  complete course_data →
  let after := add_course course_data created updated self in
  after.1 = Returned (next_course_id self)
  ∧ (∃ record,
       get_course after.2 (next_course_id self) = Some record
       ∧ record !! "id" = Some (VInt (next_course_id self))
       ∧ (∀ key, key ∈ FIELDS → record !! key = course_data !! key)
       ∧ record !! "created_at" = Some (VStr created)
       ∧ record !! "updated_at" = Some (VStr updated)
       ∧ (∀ key, is_Some (record !! key) ↔ key ∈ COURSE_KEYS))
  ∧ ∀ other, other ≠ next_course_id self → get_course after.2 other = get_course self other.
Proof.
  intros (t & d & u & f & p & c & Ht & Hd & Hu & Hf & Hp & Hc)%complete_fields after.
  subst after. unfold add_course, new_record, getitem.
  rewrite Ht, Hd, Hu, Hf, Hp, Hc. cbn -[list_to_map]. unfold get_course.
  cbn [courses set_courses set_next_course_id].
  split; [done|]. split.
  - eexists. rewrite lookup_insert_eq. split; [reflexivity|].
    split_and!; try by vm_compute.
    + intros key Hkey. unfold FIELDS in Hkey. rewrite !elem_of_cons, elem_of_nil in Hkey.
      destruct_or!; try done; subst key; by vm_compute.
    + intros key. unfold COURSE_KEYS. rewrite <- elem_of_dom.
      cbn [list_to_map foldr uncurry fst snd].
      rewrite !dom_insert_L, dom_empty_L, !elem_of_union, !elem_of_singleton,
        !elem_of_cons, elem_of_nil, elem_of_empty.
      tauto.
  - intros other Hne. by rewrite lookup_insert_ne.
Qed.

End Composition.

(** ** The two helpers when the backend answers *)
Section HelpersMore.

Implicit Types (self : CourseManager) (entry : gmap string value).

Lemma last10_app {A : Type} (older recent : list A) :
  (10 ≤ length recent)%nat → last10 (older ++ recent) = last10 recent.
Proof.
  intros H. unfold last10. rewrite length_app.
  replace (length older + length recent - 10)%nat
    with (length older + (length recent - 10))%nat by lia.
  by rewrite drop_app_add.
Qed.

(** X13: only the last ten entries count for the summary: a store whose
    feedback is that of another with older entries in front, the ten most
    recent being the same, gets the same request sent, the same lines
    printed and the same summary. *)
Theorem summarize_feedback_window (self self' : CourseManager)
    (older : list (gmap string value)) :
  (10 ≤ length (feedback self))%nat →
  feedback self' = older ++ feedback self →
  openai_client self' = openai_client self →
  summarize_feedback self' = summarize_feedback self.
Proof.
  intros Hlen Hf Hc. unfold summarize_feedback.
  rewrite Hc, Hf, (last10_app older (feedback self) Hlen).
  destruct (feedback self) as [|entry rest] eqn:E; [simpl in Hlen; lia|].
  by destruct older.
Qed.

Lemma feedback_line_rendered entry :
  rendered entry ↔ ∃ line, feedback_line entry = Returned line.
Proof.
  unfold rendered, feedback_line, getitem. split.
  - intros [[r ->] [t ->]]. cbn. eauto.
  - destruct (entry !! "rating") as [r|]; [|by intros [? ?]].
    destruct (entry !! "feedback") as [t|]; [|by intros [? ?]]. eauto.
Qed.

Lemma mapM_raises (entries : list (gmap string value)) entry :
  entry ∈ entries → ¬ rendered entry →
  ∃ e, mapM feedback_line entries = Raised e.
Proof.
  intros Hin Hno. induction entries as [|x entries IH]; [by apply elem_of_nil in Hin|].
  cbn. destruct (feedback_line x) as [line|e] eqn:E; cbn; [|by eauto].
  apply elem_of_cons in Hin as [->|Hin].
  - destruct Hno. apply feedback_line_rendered. eauto.
  - destruct (IH Hin) as [e ->]. cbn. eauto.
Qed.

Lemma mapM_returns (entries : list (gmap string value)) :
  Forall rendered entries →
  ∃ lines, mapM feedback_line entries = Returned lines
           ∧ Forall2 (fun entry line => feedback_line entry = Returned line) entries lines.
Proof.
  induction 1 as [|x entries Hx _ IH]; [by exists []|].
  apply feedback_line_rendered in Hx as [line Hline].
  destruct IH as (lines & Hlines & Hall).
  exists (line :: lines). cbn. rewrite Hline. cbn. rewrite Hlines. cbn.
  split; [done|]. by constructor.
Qed.

(** X14: with a client, when one of the last ten entries lacks its rating
    or its text, the summary helper gives up before calling the backend: no
    request is sent and the fixed message comes back. *)
Theorem summarize_feedback_unrendered self (c : client) entry :
  openai_client self = Some c →
  entry ∈ last10 (feedback self) →
  ¬ rendered entry →
  calls (summarize_feedback self) = []
  ∧ result (summarize_feedback self) = Returned NO_SUMMARY.
Proof.
  intros Hc Hin Hno. unfold summarize_feedback. rewrite Hc.
  destruct (feedback self) as [|x rest] eqn:E.
  { unfold last10 in Hin. simpl in Hin. by apply elem_of_nil in Hin. }
  destruct (mapM_raises _ entry Hin Hno) as [e ->]. by cbn.
Qed.

(** X15: with a client, when each of the last ten entries holds a rating
    and a text, exactly one request is sent: its one message is the fixed
    instruction, two lines of text and a line of twelve spaces, followed,
    after twelve more spaces, by one line for each of these entries, oldest
    first, each line built from the rating and the text of its entry. *)
Theorem summarize_feedback_request self (c : client) :
  openai_client self = Some c →
  feedback self ≠ [] →
  Forall rendered (drop (length (feedback self) - 10) (feedback self)) →
  ∃ lines,
    Forall2 (fun entry line =>
               ∃ rating text,
                 entry !! "rating" = Some rating ∧ entry !! "feedback" = Some text
                 ∧ line = "Rating: " +:+ str_of_value rating +:+ "/5 - " +:+ str_of_value text)
            (drop (length (feedback self) - 10) (feedback self)) lines
    ∧ calls (summarize_feedback self)
      = [ {| model := "gpt-3.5-turbo";
             messages :=
               [ {| role := "user";
                    content :=
                      "Summarize the following student feedback for Iron Lady Leadership Programs."
                      +:+ newline
                      +:+ "            Provide key insights, common themes, and overall sentiment:"
                      +:+ newline
                      +:+ "            "
                      +:+ newline
                      +:+ "            " +:+ unlines lines |} ];
             max_tokens := 200;
             temperature := QArith_base.Qmake 5 10 |} ].
Proof.
  intros Hc Hne Hall. change (drop _ (feedback self)) with (last10 (feedback self)) in *.
  unfold summarize_feedback. rewrite Hc.
  destruct (feedback self) as [|x rest] eqn:E; [done|].
  destruct (mapM_returns _ Hall) as (lines & -> & Hlines).
  exists lines. split.
  - eapply Forall2_impl; [exact Hlines|]. intros entry line. cbv beta.
    unfold feedback_line, getitem.
    destruct (entry !! "rating") as [r|]; [|done].
    destruct (entry !! "feedback") as [t|]; [|done].
    cbn. intros [= <-]. by exists r, t.
  - unfold create, lift, try_except, mbind, io_bind. cbv beta iota zeta.
    match goal with |- context [c ?req] => destruct (c req) as [resp|e] end;
      [destruct (stripped_content resp) as [text|e]|]; reflexivity.
Qed.

Lemma split_no_separator (sep : ascii) (s : string) :
  Forall (fun a => a ≠ sep) (String.list_ascii_of_string s) → split sep s = [s].
Proof.
  induction s as [|a s IH]; [done|]. simpl. intros [Ha Hs]%Forall_cons.
  destruct (Ascii.eqb a sep) eqn:E; [by apply Ascii.eqb_eq in E|].
  by rewrite (IH Hs).
Qed.

Lemma lstrip_chars_all (chars : list ascii) (s : string) :
  Forall (fun a => a ∈ chars) (String.list_ascii_of_string s) → lstrip_chars chars s = "".
Proof.
  induction s as [|a s IH]; [done|]. simpl. intros [Ha Hs]%Forall_cons.
  rewrite bool_decide_eq_true_2 by done. by apply IH.
Qed.

(** X16: a title can come back empty. When the backend answers with one
    line that has no white space around it and is made of dashes and spaces
    only, the line passes the test for blank lines but nothing of it is left
    once dashes and spaces are stripped: the list returned holds one empty
    title. *)
Theorem suggestions_dash_line self (c : client) (text category : string) :
  openai_client self = Some c →
  (∀ r, returns_text (c r) text) →
  strip text = text →
  text ≠ "" →
  Forall (fun a => a ∈ ["-"; " "]%char) (String.list_ascii_of_string text) →
  result (generate_course_suggestions self category) = Returned [""].
Proof.
  intros Hc Hret Hstrip Hne Hchars.
  unfold generate_course_suggestions. rewrite Hc. unfold create. cbv zeta.
  match goal with |- context [c ?req] => destruct (Hret req) as [rest ->] end.
  cbn -[split strip strip_chars]. rewrite Hstrip.
  rewrite split_no_separator.
  2: { eapply Forall_impl; [exact Hchars|]. intros a Ha.
       rewrite !elem_of_cons, elem_of_nil in Ha. by destruct_or!; try done; subst a. }
  rewrite filter_cons_True.
  2: { rewrite Hstrip. by destruct text. }
  rewrite filter_nil. cbn -[strip strip_chars].
  unfold strip_chars. rewrite (lstrip_chars_all _ text Hchars). reflexivity.
Qed.

End HelpersMore.

(** ** The routes *)
Section RoutesProperties.

Implicit Types (self : CourseManager) (req : Routes.request).

(** The form read in full: the six fields as strings. *)
Lemma course_data_of_returned (f : gmap string string) course_data :
  Routes.course_data_of f = Returned course_data →
  complete course_data
  ∧ ∀ key, key ∈ FIELDS → course_data !! key = VStr <$> f !! key.
Proof.
  unfold Routes.course_data_of, getitem. intros H.
  destruct (f !! "title") as [t|] eqn:Ht; [|done].
  destruct (f !! "description") as [d|] eqn:Hd; [|done].
  destruct (f !! "duration") as [u|] eqn:Hu; [|done].
  destruct (f !! "format") as [fo|] eqn:Hf; [|done].
  destruct (f !! "price") as [p|] eqn:Hp; [|done].
  destruct (f !! "category") as [c|] eqn:Hc; [|done].
  cbn in H. injection H as <-. split.
  - unfold complete, FIELDS.
    repeat (apply Forall_cons; split); try apply Forall_nil;
      (eexists; vm_compute; reflexivity).
  - intros key Hkey. unfold FIELDS in Hkey. rewrite !elem_of_cons, elem_of_nil in Hkey.
    destruct_or!; try done; subst key;
      rewrite ?Ht, ?Hd, ?Hu, ?Hf, ?Hp, ?Hc; by vm_compute.
Qed.

Lemma bind_raised {A B : Type} (m : outcome A) (f : A → outcome B) e :
  m ≫= f = Raised e → m = Raised e ∨ ∃ a, m = Returned a ∧ f a = Raised e.
Proof. destruct m as [a|e']; intros H; [right; by exists a | left; by injection H as <-]. Qed.

Lemma getitem_raised {V : Type} (d : gmap string V) (key : string) e :
  getitem d key = Raised e → e = KeyError key.
Proof. unfold getitem. by destruct (d !! key); intros [= <-]. Qed.

Lemma course_data_of_raised (f : gmap string string) e :
  Routes.course_data_of f = Raised e → ∃ key, e = KeyError key.
Proof.
  unfold Routes.course_data_of. intros H.
  repeat (apply bind_raised in H as [H%getitem_raised | (? & _ & H)]; [by eexists|]).
  discriminate H.
Qed.

Lemma course_data_of_complete (f : gmap string string) :
  Forall (fun key => is_Some (f !! key)) FIELDS →
  ∃ course_data, Routes.course_data_of f = Returned course_data.
Proof.
  unfold FIELDS. rewrite !Forall_cons.
  intros ([t Ht] & [d Hd] & [u Hu] & [fo Hf] & [p Hp] & [c Hc] & _).
  unfold Routes.course_data_of, getitem. rewrite Ht, Hd, Hu, Hf, Hp, Hc. cbn. eauto.
Qed.

Lemma update_course_present self (course_id : Z) record course_data (now : string) :
  courses self !! course_id = Some record →
  complete course_data →
  (update_course course_id course_data now self).1 = Returned true.
Proof.
  intros Hrec Hc. unfold update_course. rewrite Hrec.
  by destruct (changes_complete course_data now Hc)
    as (? & ? & ? & ? & ? & ? & _ & _ & _ & _ & _ & _ & ->).
Qed.

Lemma update_course_others self (course_id other : Z) course_data (now : string) :
  other ≠ course_id →
  courses (update_course course_id course_data now self).2 !! other = courses self !! other.
Proof.
  intros Hne. unfold update_course. destruct (courses self !! course_id); [|done].
  destruct (changes course_data now); [|done]. simpl. by rewrite lookup_insert_ne.
Qed.

(** X17: the edit handler never reports a failed update: once it has found
    the course, [update_course] cannot return [False]. Whatever the
    request, it changes no record but the one asked for. *)
Theorem edit_course_route_frame (course_id : Z) req (now : string) self :
  let h := Routes.edit_course course_id req now self in
  (("Failed to update course!", "error") ∉ Routes.flashes h)
  ∧ ∀ other, other ≠ course_id →
             courses (Routes.store h) !! other = courses self !! other.
Proof.
  intros h. subst h. unfold Routes.edit_course, get_course, Routes.found.
  destruct (courses self !! course_id) as [record|] eqn:Hrec; cbn [negb].
  2: { split; [|done]. cbn. rewrite list_elem_of_singleton. by intros [=]. }
  destruct (bool_decide (record = ∅)); cbn [negb].
  { split; [|done]. cbn. rewrite list_elem_of_singleton. by intros [=]. }
  destruct (bool_decide (Routes.method req = "POST")).
  2: { split; [|done]. cbn. apply not_elem_of_nil. }
  destruct (Routes.course_data_of (Routes.form req)) as [course_data|e] eqn:Hform.
  2: { split; [|done]. cbn. apply not_elem_of_nil. }
  apply course_data_of_returned in Hform as [Hc Hvalues].
  pose proof (update_course_present self course_id record course_data now Hrec Hc) as Hup.
  pose proof (update_course_others self course_id) as Hothers.
  destruct (update_course course_id course_data now self) as [[[]|e] self'] eqn:E;
    cbn in Hup; try done.
  assert (∀ other, other ≠ course_id → courses self' !! other = courses self !! other)
    as Hframe.
  { intros other Hne. specialize (Hothers other course_data now Hne).
    by rewrite E in Hothers. }
  destruct (getitem course_data "title") as [title|e]; cbn; (split; [|done]).
  - rewrite list_elem_of_singleton. by intros [=].
  - apply not_elem_of_nil.
Qed.

(** X18: a POST to the edit handler for a course that is there, with the
    six fields in the form, redirects to the course list, flashes one
    message of success bearing the new title, and leaves the store as
    [update_course] with the six strings of the form leaves it. *)
Theorem edit_course_route_post (course_id : Z) req (now : string) self record :
  courses self !! course_id = Some record →
  record ≠ ∅ →
  Routes.method req = "POST" →
  Forall (fun key => is_Some (Routes.form req !! key)) FIELDS →
  ∃ course_data title,
    (∀ key, key ∈ FIELDS → course_data !! key = VStr <$> Routes.form req !! key)
    ∧ Routes.form req !! "title" = Some title
    ∧ Routes.edit_course course_id req now self
      = {| Routes.served := Returned (Routes.Redirect "courses");
           Routes.flashes :=
             [ ("Course " +:+ Routes.quote +:+ title +:+ Routes.quote
                +:+ " updated successfully!", "success") ];
           Routes.store := (update_course course_id course_data now self).2 |}.
Proof.
  intros Hrec Hne Hpost Hform.
  destruct (course_data_of_complete _ Hform) as [course_data Hdata].
  pose proof Hdata as [Hc Hvalues]%course_data_of_returned.
  assert (is_Some (Routes.form req !! "title")) as [title Ht].
  { unfold FIELDS in Hform. by apply Forall_cons in Hform as [? _]. }
  exists course_data, title. split; [done|]. split; [done|].
  unfold Routes.edit_course, get_course, Routes.found. rewrite Hrec.
  rewrite bool_decide_eq_false_2 by done. cbn [negb].
  rewrite bool_decide_eq_true_2 by done. rewrite Hdata.
  pose proof (update_course_present self course_id record course_data now Hrec Hc) as Hup.
  destruct (update_course course_id course_data now self) as [[[]|e] self'];
    cbn in Hup; try done.
  unfold getitem. rewrite (Hvalues "title"), Ht by (unfold FIELDS; by left). done.
Qed.

(** X19: on a store whose records are keyed, the delete handler always
    redirects to the course list and leaves the identifier absent and the
    other records alone; it flashes success, with the title the course
    had, exactly when the course was there, and failure otherwise. *)
Theorem delete_course_route (course_id : Z) self :
  records_keyed self →
  let h := Routes.delete_course course_id self in
  Routes.served h = Returned (Routes.Redirect "courses")
  ∧ courses (Routes.store h) !! course_id = None
  ∧ (∀ other, other ≠ course_id →
              courses (Routes.store h) !! other = courses self !! other)
  ∧ match courses self !! course_id with
    | Some record =>
        ∃ title,
          record !! "title" = Some title
          ∧ Routes.flashes h
            = [ ("Course " +:+ Routes.quote +:+ str_of_value title +:+ Routes.quote
                 +:+ " deleted successfully!", "success") ]
    | None =>
        Routes.flashes h = [ ("Failed to delete course!", "error") ]
        ∧ Routes.store h = self
    end.
Proof.
  intros Hkeyed h. subst h. unfold Routes.delete_course, get_course, Routes.found.
  destruct (courses self !! course_id) as [record|] eqn:Hrec; [|done].
  destruct (Hkeyed _ _ Hrec) as [_ Hkeys].
  assert (is_Some (record !! "title")) as [title Ht].
  { unfold COURSE_KEYS in Hkeys. apply Forall_cons in Hkeys as [_ Hkeys].
    by apply Forall_cons in Hkeys as [? _]. }
  rewrite bool_decide_eq_false_2 by (intros ->; by rewrite lookup_empty in Ht).
  cbn [negb]. unfold App.delete_course. rewrite Hrec. unfold getitem. rewrite Ht. cbn.
  split; [done|]. split; [apply lookup_delete_eq|]. split.
  - intros other Hne. by apply lookup_delete_ne.
  - by exists title.
Qed.

(** X20: a POST to the add handler with the six fields in the form
    redirects to the course list, flashes one message of success bearing
    the title, and leaves the store as [add_course] with the six strings of
    the form leaves it, the new record under the old value of the counter. *)
Theorem add_course_route_post req (created updated : string) self :
  Routes.method req = "POST" →
  Forall (fun key => is_Some (Routes.form req !! key)) FIELDS →
  ∃ course_data title,
    (∀ key, key ∈ FIELDS → course_data !! key = VStr <$> Routes.form req !! key)
    ∧ Routes.form req !! "title" = Some title
    ∧ Routes.add_course req created updated self
      = {| Routes.served := Returned (Routes.Redirect "courses");
           Routes.flashes :=
             [ ("Course " +:+ Routes.quote +:+ title +:+ Routes.quote
                +:+ " added successfully!", "success") ];
           Routes.store := (add_course course_data created updated self).2 |}
    ∧ is_Some (courses (add_course course_data created updated self).2
                 !! next_course_id self).
Proof.
  intros Hpost Hform.
  destruct (course_data_of_complete _ Hform) as [course_data Hdata].
  pose proof Hdata as [Hc Hvalues]%course_data_of_returned.
  assert (is_Some (Routes.form req !! "title")) as [title Ht].
  { unfold FIELDS in Hform. by apply Forall_cons in Hform as [? _]. }
  exists course_data, title. split; [done|]. split; [done|].
  unfold Routes.add_course. rewrite bool_decide_eq_true_2 by done. rewrite Hdata.
  destruct (add_course_cases course_data created updated self)
    as [(record & _ & E) | (e & E)].
  2: { pose proof (add_course_complete course_data created updated self Hc) as E'.
       by rewrite E in E'. }
  rewrite E. unfold getitem. rewrite (Hvalues "title"), Ht by (unfold FIELDS; by left).
  split; [done|]. cbn. rewrite lookup_insert_eq. by eexists.
Qed.

(** X21: a request to the add handler that is not a POST, or whose form
    lacks one of the six fields, leaves the store as it was and flashes
    nothing: the one shows the form, the other ends in a [KeyError]. *)
Theorem add_course_route_rejects req (created updated : string) self :
  Routes.method req ≠ "POST"
  ∨ ¬ Forall (fun key => is_Some (Routes.form req !! key)) FIELDS →
  let h := Routes.add_course req created updated self in
  Routes.store h = self
  ∧ Routes.flashes h = []
  ∧ (Routes.method req ≠ "POST" →
     Routes.served h = Returned (Routes.Template "add_course.html" None))
  ∧ (Routes.method req = "POST" → ∃ key, Routes.served h = Raised (KeyError key)).
Proof.
  intros H h. subst h. unfold Routes.add_course.
  destruct (decide (Routes.method req = "POST")) as [Hpost|Hget].
  - rewrite bool_decide_eq_true_2 by done.
    destruct H as [H|H]; [done|].
    destruct (Routes.course_data_of (Routes.form req)) as [course_data|e] eqn:E.
    + destruct H. apply course_data_of_returned in E as [Hc Hvalues].
      unfold complete in Hc. rewrite Forall_forall in Hc. apply Forall_forall.
      intros key Hkey. destruct (Hc key Hkey) as [v Hv].
      rewrite (Hvalues key Hkey) in Hv.
      destruct (Routes.form req !! key); [by eexists | done].
    + apply course_data_of_raised in E as [key ->]. repeat split; [done|]. by exists key.
  - rewrite bool_decide_eq_false_2 by done. by repeat split.
Qed.

End RoutesProperties.

(** ** The chat endpoint *)
Section ChatEndpoint.

Variable lower : string → string.

(** X22: the chat endpoint builds a new chatbot for each request. Without a
    ["message"] in the JSON it answers the fixed prompt and calls nothing;
    with a string it returns a reply that is not empty and calls the
    backend at most once; with a number it raises [AttributeError]. *)
Theorem api_chat_reply (api_key : option string) (OpenAI : string → outcome client)
    (data : gmap string value) :
  let served := Routes.api_chat lower api_key OpenAI data in
  match data !! "message" with
  | None => result served = Returned PROMPT_FOR_INPUT ∧ calls served = []
  | Some (VStr user_message) =>
      ∃ reply, result served = Returned reply ∧ reply ≠ ""
               ∧ (length (calls served) ≤ 1)%nat
  | Some (VInt _) => ∃ msg, result served = Raised (AttributeError msg) ∧ calls served = []
  end.
Proof.
  intros served. subst served. unfold Routes.api_chat.
  destruct (chatbot_init_shape api_key OpenAI) as (c & line & ->).
  rewrite io_bind_returned.
  destruct (data !! "message") as [[n|user_message]|]; unfold default; cbn [from_option id Routes.get_response_of].
  - by eexists.
  - destruct (get_response_shape lower (with_client c) user_message)
      as [[_ ->] | (_ & t & ai_response & reply & _ & -> & Hne & Hcalls)].
    + exists PROMPT_FOR_INPUT. split_and!; [reflexivity | by vm_compute | cbn; lia].
    + exists reply. by split_and!.
  - unfold get_response. by rewrite (blank_falsy "" blank_empty).
Qed.

End ChatEndpoint.

(** ** The further properties at concrete inputs *)

Lemma feedback_fields_read :
  reads_as int_of_digits (feedback_fields "5" "Great") 5.
Proof.
  unfold reads_as. split_and!; try (eexists; vm_compute; reflexivity).
  exists (VStr "5"). split; vm_compute; reflexivity.
Qed.

Lemma add_feedback_appends_witness :
  reads_as int_of_digits (feedback_fields "5" "Great") 5
  ∧ ∃ entry,
      add_feedback int_of_digits (feedback_fields "5" "Great") "2024-02-01 10:00:00"
        built_store
      = (Returned (next_feedback_id built_store),
         {| courses := courses built_store;
            feedback := feedback built_store ++ [entry];
            next_course_id := next_course_id built_store;
            next_feedback_id := next_feedback_id built_store + 1;
            openai_client := openai_client built_store |})
      ∧ entry !! "id" = Some (VInt (next_feedback_id built_store))
      ∧ entry !! "rating" = Some (VInt 5)
      ∧ entry !! "created_at" = Some (VStr "2024-02-01 10:00:00")
      ∧ (∀ key, key ∈ ["name"; "email"; "course"; "feedback"] →
                entry !! key = feedback_fields "5" "Great" !! key).
Proof.
  split; [exact feedback_fields_read|].
  exact (add_feedback_appends int_of_digits (feedback_fields "5" "Great")
           "2024-02-01 10:00:00" 5 built_store feedback_fields_read).
Defined.

Lemma empty_data_unread : ∀ n, ¬ reads_as int_of_digits ∅ n.
Proof. intros n ([v Hv] & _). by rewrite lookup_empty in Hv. Qed.

Lemma add_feedback_rejects_witness :
  (∀ n, ¬ reads_as int_of_digits ∅ n)
  ∧ ∃ e, add_feedback int_of_digits ∅ "2024-02-01 10:00:01" built_store
         = (Raised e, built_store).
Proof.
  split; [exact empty_data_unread|].
  exact (add_feedback_rejects int_of_digits ∅ "2024-02-01 10:00:01" built_store
           empty_data_unread).
Defined.

Lemma used_store_reachable : reachable int_of_digits used_store.
Proof.
  exists None, no_library, still_clock, history, built_store.
  split; [vm_compute; reflexivity | reflexivity].
Qed.

Lemma reachable_feedback_numbered_witness :
  reachable int_of_digits used_store ∧ feedback_numbered used_store.
Proof.
  split; [exact used_store_reachable|].
  exact (reachable_feedback_numbered int_of_digits used_store used_store_reachable).
Defined.

Lemma reachable_records_keyed_witness :
  reachable int_of_digits used_store
  ∧ records_keyed used_store ∧ ids_below_next used_store.
Proof.
  split; [exact used_store_reachable|].
  exact (reachable_records_keyed int_of_digits used_store used_store_reachable).
Defined.

Example used_store_contents :
  dom (courses used_store) = {[1; 3; 4]}
  ∧ (fun entry : gmap string value => entry !! "id") <$> feedback used_store
    = [Some (VInt 1); Some (VInt 2)]
  ∧ next_course_id used_store = 5
  ∧ next_feedback_id used_store = 3.
Proof. split_and!; vm_compute; reflexivity. Qed.

Lemma update_course_twice_witness :
  courses one_course_store !! 1 = Some old_record
  ∧ complete (course_fields "New")
  ∧ complete (course_fields "Newer")
  ∧ update_course 1 (course_fields "Newer") "2024-06-02 10:00:00"
      (update_course 1 (course_fields "New") "2024-06-01 10:00:00" one_course_store).2
    = (Returned true,
       (update_course 1 (course_fields "Newer") "2024-06-02 10:00:00" one_course_store).2).
Proof.
  assert (courses one_course_store !! 1 = Some old_record) as H
    by (vm_compute; reflexivity).
  split_and!; [exact H | exact (course_fields_complete "New")
               | exact (course_fields_complete "Newer") |].
  exact (update_course_twice one_course_store 1 old_record (course_fields "New")
           (course_fields "Newer") "2024-06-01 10:00:00" "2024-06-02 10:00:00" H
           (course_fields_complete "New") (course_fields_complete "Newer")).
Defined.

Lemma add_course_then_get_witness :
  complete (course_fields "New")
  ∧ let after := add_course (course_fields "New") "2024-06-01 10:00:00"
                   "2024-06-01 10:00:01" one_course_store in
    after.1 = Returned (next_course_id one_course_store)
    ∧ (∃ record,
         get_course after.2 (next_course_id one_course_store) = Some record
         ∧ record !! "id" = Some (VInt (next_course_id one_course_store))
         ∧ (∀ key, key ∈ FIELDS → record !! key = course_fields "New" !! key)
         ∧ record !! "created_at" = Some (VStr "2024-06-01 10:00:00")
         ∧ record !! "updated_at" = Some (VStr "2024-06-01 10:00:01")
         ∧ (∀ key, is_Some (record !! key) ↔ key ∈ COURSE_KEYS))
    ∧ ∀ other, other ≠ next_course_id one_course_store →
               get_course after.2 other = get_course one_course_store other.
Proof.
  split; [exact (course_fields_complete "New")|].
  exact (add_course_then_get one_course_store (course_fields "New") "2024-06-01 10:00:00"
           "2024-06-01 10:00:01" (course_fields_complete "New")).
Defined.

Lemma summarize_feedback_window_witness :
  (10 ≤ length (feedback (store_with (Some (answering "Fine.")) ten_entries)))%nat
  ∧ summarize_feedback (store_with (Some (answering "Fine.")) (stored_entry 1 :: ten_entries))
    = summarize_feedback (store_with (Some (answering "Fine.")) ten_entries).
Proof.
  assert (10 ≤ length (feedback (store_with (Some (answering "Fine.")) ten_entries)))%nat
    as H by (vm_compute; lia).
  split; [exact H|].
  exact (summarize_feedback_window
           (store_with (Some (answering "Fine.")) ten_entries)
           (store_with (Some (answering "Fine.")) (stored_entry 1 :: ten_entries))
           [stored_entry 1] H eq_refl eq_refl).
Defined.

Lemma summarize_feedback_unrendered_witness :
  ∅ ∈ last10 (feedback (store_with (Some (answering "Fine.")) [stored_entry 1; ∅]))
  ∧ ¬ rendered ∅
  ∧ calls (summarize_feedback (store_with (Some (answering "Fine.")) [stored_entry 1; ∅])) = []
  ∧ result (summarize_feedback (store_with (Some (answering "Fine.")) [stored_entry 1; ∅]))
    = Returned NO_SUMMARY.
Proof.
  assert (∅ ∈ last10 (feedback (store_with (Some (answering "Fine.")) [stored_entry 1; ∅])))
    as Hin by (change ((∅ : gmap string value) ∈ [stored_entry 1; ∅]);
               rewrite !elem_of_cons; right; left; reflexivity).
  assert (¬ rendered ∅) as Hno
    by (intros [[v Hv] _]; rewrite lookup_empty in Hv; discriminate Hv).
  split; [exact Hin|]. split; [exact Hno|].
  exact (summarize_feedback_unrendered
           (store_with (Some (answering "Fine.")) [stored_entry 1; ∅])
           (answering "Fine.") ∅ eq_refl Hin Hno).
Defined.

Lemma stored_entry_rendered n : rendered (stored_entry n).
Proof. split; eexists; vm_compute; reflexivity. Qed.

Lemma summarize_feedback_request_witness :
  let self := store_with (Some (answering "Fine.")) [stored_entry 1; stored_entry 2] in
  feedback self ≠ []
  ∧ Forall rendered (drop (length (feedback self) - 10) (feedback self))
  ∧ ∃ lines,
      Forall2 (fun entry line =>
                 ∃ rating text,
                   entry !! "rating" = Some rating ∧ entry !! "feedback" = Some text
                   ∧ line = "Rating: " +:+ str_of_value rating +:+ "/5 - "
                              +:+ str_of_value text)
              (drop (length (feedback self) - 10) (feedback self)) lines
      ∧ calls (summarize_feedback self)
        = [ {| model := "gpt-3.5-turbo";
               messages :=
                 [ {| role := "user";
                      content :=
                        "Summarize the following student feedback for Iron Lady Leadership Programs."
                        +:+ newline
                        +:+ "            Provide key insights, common themes, and overall sentiment:"
                        +:+ newline
                        +:+ "            "
                        +:+ newline
                        +:+ "            " +:+ unlines lines |} ];
               max_tokens := 200;
               temperature := QArith_base.Qmake 5 10 |} ].
Proof.
  intros self.
  assert (feedback self ≠ []) as Hne by discriminate.
  assert (Forall rendered (drop (length (feedback self) - 10) (feedback self))) as Hall
    by (repeat constructor; apply stored_entry_rendered).
  split; [exact Hne|]. split; [exact Hall|].
  exact (summarize_feedback_request self (answering "Fine.") eq_refl Hne Hall).
Defined.

Lemma suggestions_dash_line_witness :
  (∀ r, returns_text (answering "- -" r) "- -")
  ∧ strip "- -" = "- -"
  ∧ result (generate_course_suggestions (store_with (Some (answering "- -")) []) "Executive")
    = Returned [""].
Proof.
  assert (∀ r, returns_text (answering "- -" r) "- -") as Hr
    by (intros r; exists []; reflexivity).
  assert (strip "- -" = "- -") as Hs by (vm_compute; reflexivity).
  split; [exact Hr|]. split; [exact Hs|].
  apply (suggestions_dash_line (store_with (Some (answering "- -")) [])
           (answering "- -") "- -" "Executive" eq_refl Hr Hs).
  - discriminate.
  - repeat constructor.
Defined.

Lemma course_form_complete name :
  Forall (fun key => is_Some (course_form name !! key)) FIELDS.
Proof.
  unfold FIELDS.
  repeat (apply Forall_cons; split); try apply Forall_nil;
    (eexists; vm_compute; reflexivity).
Qed.

Lemma old_record_not_empty : old_record ≠ ∅.
Proof.
  intros H. assert (old_record !! "id" = None) as E by (by rewrite H).
  vm_compute in E. discriminate E.
Qed.

Lemma edit_course_route_post_witness :
  courses one_course_store !! 1 = Some old_record
  ∧ Routes.method (post (course_form "New")) = "POST"
  ∧ ∃ course_data title,
      (∀ key, key ∈ FIELDS →
              course_data !! key = VStr <$> Routes.form (post (course_form "New")) !! key)
      ∧ Routes.form (post (course_form "New")) !! "title" = Some title
      ∧ Routes.edit_course 1 (post (course_form "New")) "2024-06-01 10:00:00" one_course_store
        = {| Routes.served := Returned (Routes.Redirect "courses");
             Routes.flashes :=
               [ ("Course " +:+ Routes.quote +:+ title +:+ Routes.quote
                  +:+ " updated successfully!", "success") ];
             Routes.store :=
               (update_course 1 course_data "2024-06-01 10:00:00" one_course_store).2 |}.
Proof.
  assert (courses one_course_store !! 1 = Some old_record) as H
    by (vm_compute; reflexivity).
  split; [exact H|]. split; [reflexivity|].
  exact (edit_course_route_post 1 (post (course_form "New")) "2024-06-01 10:00:00"
           one_course_store old_record H old_record_not_empty eq_refl
           (course_form_complete "New")).
Defined.

Lemma one_course_store_keyed : records_keyed one_course_store.
Proof.
  intros k record. unfold one_course_store. cbn [courses].
  intros [<- <-]%lookup_singleton_Some. split; [vm_compute; reflexivity|].
  unfold COURSE_KEYS.
  repeat (apply Forall_cons; split); try apply Forall_nil;
    (eexists; vm_compute; reflexivity).
Qed.

Lemma delete_course_route_witness :
  records_keyed one_course_store
  ∧ let h := Routes.delete_course 1 one_course_store in
    Routes.served h = Returned (Routes.Redirect "courses")
    ∧ courses (Routes.store h) !! 1 = None
    ∧ (∀ other, other ≠ 1 →
                courses (Routes.store h) !! other = courses one_course_store !! other)
    ∧ match courses one_course_store !! 1 with
      | Some record =>
          ∃ title,
            record !! "title" = Some title
            ∧ Routes.flashes h
              = [ ("Course " +:+ Routes.quote +:+ str_of_value title +:+ Routes.quote
                   +:+ " deleted successfully!", "success") ]
      | None =>
          Routes.flashes h = [ ("Failed to delete course!", "error") ]
          ∧ Routes.store h = one_course_store
      end.
Proof.
  split; [exact one_course_store_keyed|].
  exact (delete_course_route 1 one_course_store one_course_store_keyed).
Defined.

Lemma add_course_route_post_witness :
  Routes.method (post (course_form "New")) = "POST"
  ∧ ∃ course_data title,
      (∀ key, key ∈ FIELDS →
              course_data !! key = VStr <$> Routes.form (post (course_form "New")) !! key)
      ∧ Routes.form (post (course_form "New")) !! "title" = Some title
      ∧ Routes.add_course (post (course_form "New")) "2024-06-01 10:00:00"
          "2024-06-01 10:00:00" one_course_store
        = {| Routes.served := Returned (Routes.Redirect "courses");
             Routes.flashes :=
               [ ("Course " +:+ Routes.quote +:+ title +:+ Routes.quote
                  +:+ " added successfully!", "success") ];
             Routes.store :=
               (add_course course_data "2024-06-01 10:00:00" "2024-06-01 10:00:00"
                  one_course_store).2 |}
      ∧ is_Some (courses (add_course course_data "2024-06-01 10:00:00"
                            "2024-06-01 10:00:00" one_course_store).2
                   !! next_course_id one_course_store).
Proof.
  split; [reflexivity|].
  exact (add_course_route_post (post (course_form "New")) "2024-06-01 10:00:00"
           "2024-06-01 10:00:00" one_course_store eq_refl (course_form_complete "New")).
Defined.

Lemma add_course_route_rejects_witness :
  (Routes.method (post ∅) ≠ "POST"
   ∨ ¬ Forall (fun key => is_Some (Routes.form (post ∅) !! key)) FIELDS)
  ∧ let h := Routes.add_course (post ∅) "2024-06-01 10:00:00" "2024-06-01 10:00:00"
               one_course_store in
    Routes.store h = one_course_store
    ∧ Routes.flashes h = []
    ∧ (Routes.method (post ∅) ≠ "POST" →
       Routes.served h = Returned (Routes.Template "add_course.html" None))
    ∧ (Routes.method (post ∅) = "POST" → ∃ key, Routes.served h = Raised (KeyError key)).
Proof.
  assert (Routes.method (post ∅) ≠ "POST"
          ∨ ¬ Forall (fun key => is_Some (Routes.form (post ∅) !! key)) FIELDS) as H.
  { right. unfold FIELDS. intros [[v Hv] _]%Forall_cons.
    cbn in Hv. rewrite lookup_empty in Hv. discriminate Hv. }
  split; [exact H|].
  exact (add_course_route_rejects (post ∅) "2024-06-01 10:00:00" "2024-06-01 10:00:00"
           one_course_store H).
Defined.

Example delete_route_flash :
  Routes.flashes (Routes.delete_course 1 one_course_store)
  = [ ("Course " +:+ Routes.quote +:+ "Old" +:+ Routes.quote +:+ " deleted successfully!",
       "success") ]
  ∧ Routes.flashes (Routes.delete_course 7 one_course_store)
    = [ ("Failed to delete course!", "error") ].
Proof. split; vm_compute; reflexivity. Qed.
